(** * seed-firestore: a shallow embedding of the Firestore seeding script

    The script [frontend/scripts/seed-firestore.ts] parses command-line
    flags, locates a service-account file, builds three plain documents and
    upserts them.  This development embeds it function by function:

    - strings are [string] (the UTF-8 bytes of the source text; every pattern
      the script matches on is ASCII, so byte-wise matching agrees with the
      code-unit-wise matching of the runtime);
    - JavaScript object literals are association lists in source order;
    - a value that may be [undefined] is an [option];
    - the built-ins of the language runtime whose results the script only
      passes along ([Number], [toFixed], [toISOString], [path.resolve]) are
      the fields of the class [JsRuntime];
    - everything the script obtains from outside (arguments, file system,
      random identifiers, the clock, the answers of the remote store) is a
      field of the record [World];
    - console output, file reads and store writes are recorded as a trace of
      [event]s by a small writer monad with exceptions. *)

From Stdlib Require Import List String Ascii Bool ZArith Lia.
From Stdlib Require DecimalString.
Import ListNotations.

Open Scope string_scope.
Open Scope Z_scope.

(** ** String primitives of the runtime used by the script *)

Definition dquote : string := String "034"%char EmptyString.
Definition newline : string := String "010"%char EmptyString.
Definition hyphen : ascii := "-"%char.
Definition comma : ascii := ","%char.

(** [s.startsWith(p)] *)
Definition startsWith (p s : string) : bool := String.prefix p s.

(** [s.slice(n)] for [0 <= n] *)
Fixpoint slice_from (n : nat) (s : string) : string :=
  match n, s with
  | O, _ => s
  | S _, EmptyString => EmptyString
  | S n', String _ s' => slice_from n' s'
  end.

(** [s.slice(a, b)] for [0 <= a <= b] *)
Definition slice (a b : nat) (s : string) : string :=
  String.substring a (b - a) s.

(** [s.split(sep)] for a one-character separator: never empty, [""] for the
    empty string. *)
Fixpoint split (sep : ascii) (s : string) : list string :=
  match s with
  | EmptyString => [EmptyString]
  | String c s' =>
      if Ascii.eqb c sep then EmptyString :: split sep s'
      else match split sep s' with
           | [] => [String c EmptyString]
           | piece :: pieces => String c piece :: pieces
           end
  end.

(** [s.replace(/c/g, '')]: every occurrence of the character removed. *)
Fixpoint remove_all (c : ascii) (s : string) : string :=
  match s with
  | EmptyString => EmptyString
  | String d s' =>
      if Ascii.eqb d c then remove_all c s' else String d (remove_all c s')
  end.

(** [s.includes(sub)] *)
Fixpoint includes (sub s : string) : bool :=
  String.prefix sub s ||
  match s with
  | EmptyString => false
  | String _ s' => includes sub s'
  end.

(** [s.endsWith(suf)] *)
Fixpoint endsWith (suf s : string) : bool :=
  String.eqb s suf ||
  match s with
  | EmptyString => false
  | String _ s' => endsWith suf s'
  end.

(** Does the character occur in the string? *)
Fixpoint occurs (c : ascii) (s : string) : bool :=
  match s with
  | EmptyString => false
  | String d s' => Ascii.eqb d c || occurs c s'
  end.

(** Template-literal interpolation of a possibly undefined string. *)
Definition show (o : option string) : string :=
  match o with
  | Some s => s
  | None => "undefined"
  end.

(** Truthiness of a possibly undefined string: [undefined] and [''] are
    falsy. *)
Definition truthy (o : option string) : bool :=
  match o with
  | Some s => negb (String.eqb s "")
  | None => false
  end.

(** ** The language runtime *)

(** The built-ins whose results the script stores or tests without looking
    inside them.  [jsnum] is the runtime's number type. *)
Class JsRuntime : Type := {
  jsnum : Type;
  (** [Number(s)] *)
  Number : string -> jsnum;
  (** [Number.isNaN(x)] *)
  isNaN : jsnum -> bool;
  (** a numeric literal of the source *)
  literal : Z -> jsnum;
  (** [x.toFixed(digits)] *)
  toFixed : jsnum -> nat -> string;
  (** the text [JSON.stringify] writes for a number *)
  jsonNumber : jsnum -> string;
  (** [new Date(ms).toISOString()] *)
  toISOString : Z -> string;
  (** [path.resolve(...segments)] *)
  resolve : list string -> string
}.

(** ** SeedOptions, ParsedArgs and DEFAULTS *)

Record SeedOptions : Type := {
  teacherId : string;
  teacherName : option string;
  className : option string;
  subject : option string;
  skipSession : bool;
  sessionId : option string;
  location : option string
}.

(** [Partial<SeedOptions> & { help?, serviceAccountPath? }].  A property is
    [None] while absent; [--name] as the last argument stores [undefined]
    under a present key, which is [Some None]. *)
Record ParsedArgs : Type := {
  parsed_teacherId : option (option string);
  parsed_teacherName : option (option string);
  parsed_className : option (option string);
  parsed_subject : option (option string);
  parsed_skipSession : option bool;
  parsed_sessionId : option (option string);
  parsed_location : option (option string);
  parsed_help : option bool;
  parsed_serviceAccountPath : option (option string)
}.

Definition DEFAULTS : SeedOptions := {|
  teacherId := "";
  teacherName := Some "Demo Teacher";
  className := Some "Grade 10 — Section A";
  subject := Some "Mathematics";
  skipSession := false;
  sessionId := None;
  location := Some "0,0"
|}.

Definition empty_parsed : ParsedArgs := {|
  parsed_teacherId := None;
  parsed_teacherName := None;
  parsed_className := None;
  parsed_subject := None;
  parsed_skipSession := None;
  parsed_sessionId := None;
  parsed_location := None;
  parsed_help := None;
  parsed_serviceAccountPath := None
|}.

(** Reading a property of [parsed]: absent and [undefined] read alike. *)
Definition get {A : Type} (p : option (option A)) : option A :=
  match p with
  | Some v => v
  | None => None
  end.

(** ** The world outside the script *)

Inductive result (A : Type) : Type :=
  | Returns (a : A)
  | Throws (message : string).
Arguments Returns {A} a.
Arguments Throws {A} message.

(** One run's view of its surroundings.  Each field is what the named
    expression of the source evaluates to in this run. *)
Record World : Type := {
  (** [process.argv.slice(2)] *)
  argv : list string;
  (** [process.cwd()]: the working directory, or the error with which it
      cannot be determined *)
  cwd : result string;
  (** [dirname(fileURLToPath(import.meta.url))] *)
  script_dirname : string;
  (** [process.env.FIREBASE_SERVICE_ACCOUNT_PATH] *)
  FIREBASE_SERVICE_ACCOUNT_PATH : option string;
  (** [existsSync(path)] *)
  existsSync : string -> bool;
  (** [readdirSync(dir)]: the names in the directory, or the error with
      which it cannot be listed *)
  readdirSync : string -> result (list string);
  (** [readFileSync(path, 'utf-8')] *)
  readFileSync : string -> result string;
  (** [JSON.parse], [cert], [initializeApp] and [getFirestore] on the file's
      text: the message of the error one of them throws, if any *)
  initializeApp : string -> option string;
  (** [randomUUID()], or [None] when [typeof randomUUID] is not
      ['function'] *)
  randomUUID : option string;
  (** [Math.random().toString(36)] at the k-th call *)
  Math_random_toString36 : nat -> string;
  (** [teacherRef.collection('sessions').doc().id] *)
  auto_id : string;
  (** the message with which the store client refuses to build a reference
      for a document id, if it does (it judges an id by its text alone) *)
  doc_refuses : string -> option string;
  (** the message with which [set] on [collection/id] is rejected, if it is *)
  set_rejects : string -> string -> option string;
  (** [new Date().getTime()] inside [buildSessionDocuments] *)
  now_session : Z;
  (** [new Date().getTime()] inside [buildAnalyticsPayload] *)
  now_analytics : Z
}.

(** How a computation of the script ends. *)
Inductive outcome (A : Type) : Type :=
  | Ok (a : A)
  | Throw (message : string)                  (* throw new Error(message) *)
  | Exit (code : Z)                           (* process.exit(code) *).
Arguments Ok {A} a.
Arguments Throw {A} message.
Arguments Exit {A} code.

Section Values.

Context `{RT : JsRuntime}.

(** ** Plain data: JSON values and store documents *)

#[warnings="-register-all"] Inductive json : Type :=
  | JUndefined
  | JNull
  | JNum (n : jsnum)
  | JStr (s : string)
  | JArr (items : list json)
  | JObj (members : list (string * json)).

(** A field of a document handed to the store: data, or the
    [FieldValue.serverTimestamp()] sentinel. *)
Inductive field : Type :=
  | Data (j : json)
  | ServerTimestamp.

Definition doc : Type := list (string * field).

(** Property access [o.key] on an object literal without repeated keys. *)
Fixpoint lookup {A : Type} (key : string) (o : list (string * A)) : option A :=
  match o with
  | [] => None
  | (k, v) :: rest => if String.eqb k key then Some v else lookup key rest
  end.

Definition keys {A : Type} (o : list (string * A)) : list string :=
  map fst o.

Definition str (o : option string) : json :=
  match o with
  | Some s => JStr s
  | None => JUndefined
  end.

Definition num (z : Z) : json := JNum (literal z).

(** *** JSON.stringify *)

Definition hex_digit (n : nat) : string :=
  String.substring n 1 "0123456789abcdef".

(** The escape of one character inside a JSON string. *)
Definition quote_char (c : ascii) : string :=
  let n := nat_of_ascii c in
  if Ascii.eqb c "034" then "\" ++ dquote
  else if Ascii.eqb c "\" then "\\"
  else if Nat.eqb n 8 then "\b"
  else if Nat.eqb n 9 then "\t"
  else if Nat.eqb n 10 then "\n"
  else if Nat.eqb n 12 then "\f"
  else if Nat.eqb n 13 then "\r"
  else if Nat.ltb n 32 then "\u00" ++ hex_digit (Nat.div n 16) ++ hex_digit (Nat.modulo n 16)
  else String c EmptyString.

Fixpoint quote_chars (s : string) : string :=
  match s with
  | EmptyString => EmptyString
  | String c s' => quote_char c ++ quote_chars s'
  end.

Definition quote (s : string) : string := dquote ++ quote_chars s ++ dquote.

(** The text of a value that is not [undefined] at top level.  Inside an
    array [undefined] is written [null]; a member whose value is [undefined]
    is left out of its object. *)
Fixpoint serialize (j : json) : string :=
  match j with
  | JUndefined => "null"
  | JNull => "null"
  | JNum n => jsonNumber n
  | JStr s => quote s
  | JArr items => "[" ++ String.concat "," (map serialize items) ++ "]"
  | JObj members =>
      "{" ++ String.concat ","
        ((fix entries (ms : list (string * json)) : list string :=
            match ms with
            | [] => []
            | (k, JUndefined) :: rest => entries rest
            | (k, v) :: rest => (quote k ++ ":" ++ serialize v) :: entries rest
            end) members) ++ "}"
  end.

(** [JSON.stringify(value)] for an object literal. *)
Definition JSON_stringify (members : list (string * json)) : string :=
  serialize (JObj members).

(** ** Effects: a trace of events, exceptions and process exit *)

Inductive event : Type :=
  | Log (text : string)                       (* console.log *)
  | Warn (text : string)                      (* console.warn *)
  | Error (text : string)                     (* console.error *)
  | ReadFile (path : string)                  (* readFileSync *)
  | AppInitialized                            (* initializeApp(appOptions) *)
  | DocSet (collection id : string) (d : doc) (* ref.set(d, { merge: true }) *).

Definition M (A : Type) : Type := outcome A * list event.

Definition ret {A : Type} (a : A) : M A := (Ok a, []).

Definition bind {A B : Type} (m : M A) (k : A -> M B) : M B :=
  match m with
  | (Ok a, t) => let (r, t') := k a in (r, (t ++ t')%list)
  | (Throw e, t) => (Throw e, t)
  | (Exit c, t) => (Exit c, t)
  end.

Definition emit (e : event) : M unit := (Ok tt, [e]).
Definition throw {A : Type} (message : string) : M A := (Throw message, []).
Definition exit {A : Type} (code : Z) : M A := (Exit code, []).

Definition trace {A : Type} (m : M A) : list event := snd m.
Definition returned {A : Type} (m : M A) : outcome A := fst m.

End Values.

Notation "x <- m ;; k" := (bind m (fun x => k))
  (at level 61, m at next level, right associativity).
Notation "m ;;; k" := (bind m (fun _ => k))
  (at level 61, right associativity).

(** ** The script *)

Section Script.

Context `{RT : JsRuntime}.

(** [repoRoot = resolve(__dirname, '..', '..')] *)
Definition repoRoot (w : World) : string :=
  resolve [script_dirname w; ".."; ".."].

(** [generateSecureId] *)
Definition generateSecureId (w : World) : string :=
  match randomUUID w with
  | Some uuid => uuid
  | None =>
      let segment (k : nat) := slice 2 10 (Math_random_toString36 w k) in
      segment 0%nat ++ "-" ++ segment 1%nat ++ "-" ++ segment 2%nat ++ "-" ++ segment 3%nat
  end.

(** *** parseArgs *)

(** The loop of [parseArgs] from position [index] on, [args] being
    [argv.slice(index)].  A flag that takes a value stores [argv[index + 1]]
    ([undefined] past the end) and skips it. *)
Fixpoint parseArgs_from (args : list string) (parsed : ParsedArgs) : M ParsedArgs :=
  match args with
  | [] => ret parsed
  | current :: rest =>
      if negb (startsWith "--" current) then parseArgs_from rest parsed
      else
        let key := slice_from 2 current in
        let next := hd_error rest in
        let skip (p : ParsedArgs) :=
          match rest with
          | [] => ret p
          | _ :: rest' => parseArgs_from rest' p
          end in
        if String.eqb key "teacher" then
          skip {| parsed_teacherId := Some next;
                  parsed_teacherName := parsed_teacherName parsed;
                  parsed_className := parsed_className parsed;
                  parsed_subject := parsed_subject parsed;
                  parsed_skipSession := parsed_skipSession parsed;
                  parsed_sessionId := parsed_sessionId parsed;
                  parsed_location := parsed_location parsed;
                  parsed_help := parsed_help parsed;
                  parsed_serviceAccountPath := parsed_serviceAccountPath parsed |}
        else if String.eqb key "name" then
          skip {| parsed_teacherId := parsed_teacherId parsed;
                  parsed_teacherName := Some next;
                  parsed_className := parsed_className parsed;
                  parsed_subject := parsed_subject parsed;
                  parsed_skipSession := parsed_skipSession parsed;
                  parsed_sessionId := parsed_sessionId parsed;
                  parsed_location := parsed_location parsed;
                  parsed_help := parsed_help parsed;
                  parsed_serviceAccountPath := parsed_serviceAccountPath parsed |}
        else if String.eqb key "class" then
          skip {| parsed_teacherId := parsed_teacherId parsed;
                  parsed_teacherName := parsed_teacherName parsed;
                  parsed_className := Some next;
                  parsed_subject := parsed_subject parsed;
                  parsed_skipSession := parsed_skipSession parsed;
                  parsed_sessionId := parsed_sessionId parsed;
                  parsed_location := parsed_location parsed;
                  parsed_help := parsed_help parsed;
                  parsed_serviceAccountPath := parsed_serviceAccountPath parsed |}
        else if String.eqb key "subject" then
          skip {| parsed_teacherId := parsed_teacherId parsed;
                  parsed_teacherName := parsed_teacherName parsed;
                  parsed_className := parsed_className parsed;
                  parsed_subject := Some next;
                  parsed_skipSession := parsed_skipSession parsed;
                  parsed_sessionId := parsed_sessionId parsed;
                  parsed_location := parsed_location parsed;
                  parsed_help := parsed_help parsed;
                  parsed_serviceAccountPath := parsed_serviceAccountPath parsed |}
        else if String.eqb key "session-id" then
          skip {| parsed_teacherId := parsed_teacherId parsed;
                  parsed_teacherName := parsed_teacherName parsed;
                  parsed_className := parsed_className parsed;
                  parsed_subject := parsed_subject parsed;
                  parsed_skipSession := parsed_skipSession parsed;
                  parsed_sessionId := Some next;
                  parsed_location := parsed_location parsed;
                  parsed_help := parsed_help parsed;
                  parsed_serviceAccountPath := parsed_serviceAccountPath parsed |}
        else if String.eqb key "location" then
          skip {| parsed_teacherId := parsed_teacherId parsed;
                  parsed_teacherName := parsed_teacherName parsed;
                  parsed_className := parsed_className parsed;
                  parsed_subject := parsed_subject parsed;
                  parsed_skipSession := parsed_skipSession parsed;
                  parsed_sessionId := parsed_sessionId parsed;
                  parsed_location := Some next;
                  parsed_help := parsed_help parsed;
                  parsed_serviceAccountPath := parsed_serviceAccountPath parsed |}
        else if String.eqb key "service-account" then
          skip {| parsed_teacherId := parsed_teacherId parsed;
                  parsed_teacherName := parsed_teacherName parsed;
                  parsed_className := parsed_className parsed;
                  parsed_subject := parsed_subject parsed;
                  parsed_skipSession := parsed_skipSession parsed;
                  parsed_sessionId := parsed_sessionId parsed;
                  parsed_location := parsed_location parsed;
                  parsed_help := parsed_help parsed;
                  parsed_serviceAccountPath := Some next |}
        else if String.eqb key "skip-session" then
          parseArgs_from rest
            {| parsed_teacherId := parsed_teacherId parsed;
               parsed_teacherName := parsed_teacherName parsed;
               parsed_className := parsed_className parsed;
               parsed_subject := parsed_subject parsed;
               parsed_skipSession := Some true;
               parsed_sessionId := parsed_sessionId parsed;
               parsed_location := parsed_location parsed;
               parsed_help := parsed_help parsed;
               parsed_serviceAccountPath := parsed_serviceAccountPath parsed |}
        else if String.eqb key "help" || String.eqb key "h" then
          parseArgs_from rest
            {| parsed_teacherId := parsed_teacherId parsed;
               parsed_teacherName := parsed_teacherName parsed;
               parsed_className := parsed_className parsed;
               parsed_subject := parsed_subject parsed;
               parsed_skipSession := parsed_skipSession parsed;
               parsed_sessionId := parsed_sessionId parsed;
               parsed_location := parsed_location parsed;
               parsed_help := Some true;
               parsed_serviceAccountPath := parsed_serviceAccountPath parsed |}
        else
          emit (Warn ("Ignoring unknown flag --" ++ key)) ;;;
          parseArgs_from rest parsed
  end.

Definition parseArgs (argv : list string) : M ParsedArgs :=
  parseArgs_from argv empty_parsed.

(** *** printUsage and coerceOptions *)

Definition usage : string :=
  "Create the core Firestore structure for smart-attender.

Usage:
  bun scripts/seed-firestore.ts --teacher <firebase-uid> [options]

Options:
  --teacher <id>           Firebase Auth UID for the teacher document (required)
  --name <full name>       Teacher display name (default: " ++ dquote ++ show (teacherName DEFAULTS) ++ dquote ++ ")
  --class <label>          Class name for the sample session (default: " ++ dquote ++ show (className DEFAULTS) ++ dquote ++ ")
  --subject <label>        Subject for the sample session (default: " ++ dquote ++ show (subject DEFAULTS) ++ dquote ++ ")
  --location <lat,lng>     Comma-separated coordinates stored on the sample session (default: " ++ show (location DEFAULTS) ++ ")
  --session-id <id>        Explicit ID for the sample session document (default: auto-generated)
  --skip-session           Only create the teacher document; do not seed a session
  --service-account <path> Path to service account JSON (defaults to FIREBASE_SERVICE_ACCOUNT_PATH or repo lookup)
  --help                   Show this message
".

Definition printUsage : M unit := emit (Log usage).

Definition missing_teacher : string :=
  "Missing required flag: --teacher <firebase-uid>".

(** The spread [{ ...DEFAULTS, ...parsed, teacherId }]: a key present in
    [parsed] wins over the default, also when its value is [undefined]. *)
Definition spread {A : Type} (default : A) (p : option A) : A :=
  match p with
  | Some v => v
  | None => default
  end.

Definition coerceOptions (parsed : ParsedArgs) : M SeedOptions :=
  (if spread false (parsed_help parsed)
   then printUsage ;;; exit 0
   else ret tt) ;;;
  match get (parsed_teacherId parsed) with
  | Some id =>
      if String.eqb id "" then printUsage ;;; throw missing_teacher
      else
        ret {| teacherId := id;
               teacherName := spread (teacherName DEFAULTS) (parsed_teacherName parsed);
               className := spread (className DEFAULTS) (parsed_className parsed);
               subject := spread (subject DEFAULTS) (parsed_subject parsed);
               skipSession := spread (skipSession DEFAULTS) (parsed_skipSession parsed);
               sessionId := spread (sessionId DEFAULTS) (parsed_sessionId parsed);
               location := spread (location DEFAULTS) (parsed_location parsed) |}
  | None => printUsage ;;; throw missing_teacher
  end.

(** *** detectServiceAccount *)

Definition is_candidate (file : string) : bool :=
  includes "firebase-adminsdk" file && endsWith ".json" file.

(** [files.filter((file) => ...)] *)
Definition candidates (files : list string) : list string :=
  filter is_candidate files.

Definition explicit_not_found (resolved : string) : string :=
  "Service account file not found at " ++ resolved.

Definition env_not_found (resolved : string) : string :=
  "Service account file from FIREBASE_SERVICE_ACCOUNT_PATH not found at " ++ resolved.

Definition none_found : string :=
  "No service account JSON found. Set FIREBASE_SERVICE_ACCOUNT_PATH or pass --service-account <path>.".

Definition detectServiceAccount (w : World) (explicitPath : option string) : M string :=
  if truthy explicitPath then
    match cwd w with
    | Throws message => throw message
    | Returns directory =>
        let resolved := resolve [directory; show explicitPath] in
        if negb (existsSync w resolved) then throw (explicit_not_found resolved)
        else ret resolved
    end
  else
    let envPath := FIREBASE_SERVICE_ACCOUNT_PATH w in
    if truthy envPath then
      match cwd w with
      | Throws message => throw message
      | Returns directory =>
          let resolved := resolve [directory; show envPath] in
          if negb (existsSync w resolved) then throw (env_not_found resolved)
          else ret resolved
      end
    else
      match readdirSync w (repoRoot w) with
      | Throws message => throw message
      | Returns files =>
          match candidates files with
          | [] => throw none_found
          | first :: _ =>
              let chosen := resolve [repoRoot w; first] in
              emit (Log ("Using service account file: " ++ chosen)) ;;;
              ret chosen
          end
      end.

(** *** buildSessionDocuments *)

(** [a ?? b] *)
Definition nullish {A : Type} (a : option A) (b : A) : A :=
  match a with
  | Some v => v
  | None => b
  end.

Definition invalid_location (options : SeedOptions) : string :=
  "Invalid --location value: " ++ show (location options)
    ++ ". Expected format is " ++ dquote ++ "lat,lng" ++ dquote.

Record SessionDocuments : Type := {
  sessionDoc : doc;
  publicDoc : doc
}.

Definition buildSessionDocuments (now : Z) (options : SeedOptions)
    (sessionId sessionToken : string) : M SessionDocuments :=
  let parts := split comma (nullish (location options) (nullish (location DEFAULTS) "0,0")) in
  let latitudeRaw := nth_error parts 0 in
  let longitudeRaw := nth_error parts 1 in
  let latitude := Number (nullish latitudeRaw "0") in
  let longitude := Number (nullish longitudeRaw "0") in
  if isNaN latitude || isNaN longitude then throw (invalid_location options)
  else
    let scheduledFor := now + 15 * 60 * 1000 in
    let locationCoordinates :=
      JObj [ ("latitude", JNum latitude);
             ("longitude", JNum longitude);
             ("accuracy", JNull);
             ("capturedAt", JStr (toISOString now)) ] in
    let qrData :=
      JSON_stringify
        [ ("sessionId", JStr sessionId);
          ("sessionToken", JStr sessionToken);
          ("className", str (className options));
          ("subject", str (subject options));
          ("scheduledFor", JStr (toISOString scheduledFor));
          ("teacherId", JStr (teacherId options));
          ("durationMinutes", num 45);
          ("locationCoordinates", locationCoordinates) ] in
    let location_text := toFixed latitude 5 ++ ", " ++ toFixed longitude 5 in
    ret {| sessionDoc :=
             [ ("sessionId", Data (JStr sessionId));
               ("className", Data (str (className options)));
               ("subject", Data (str (subject options)));
               ("scheduledFor", Data (JStr (toISOString scheduledFor)));
               ("location", Data (JStr location_text));
               ("locationCoordinates", Data locationCoordinates);
               ("durationMinutes", Data (num 45));
               ("status", Data (JStr "scheduled"));
               ("expectedAttendance", Data (num 30));
               ("attendees", Data (JArr []));
               ("sessionToken", Data (JStr sessionToken));
               ("qrCodeData", Data (JStr qrData));
               ("createdAt", ServerTimestamp) ];
           publicDoc :=
             [ ("sessionId", Data (JStr sessionId));
               ("sessionToken", Data (JStr sessionToken));
               ("sessionPath",
                 Data (JStr ("teachers/" ++ teacherId options ++ "/sessions/" ++ sessionId)));
               ("teacherId", Data (JStr (teacherId options)));
               ("className", Data (str (className options)));
               ("subject", Data (str (subject options)));
               ("scheduledFor", Data (JStr (toISOString scheduledFor)));
               ("durationMinutes", Data (num 45));
               ("expectedAttendance", Data (num 30));
               ("status", Data (JStr "scheduled"));
               ("location", Data (JStr location_text));
               ("locationCoordinates", Data locationCoordinates);
               ("createdAt", ServerTimestamp) ] |}.

(** *** buildAnalyticsPayload *)

Record ClassEntry : Type := {
  classId : string;
  class_className : option string;
  class_subject : option string;
  averageAttendanceRate : Z;
  totalStudents : Z;
  class_dropoutRiskCount : Z;
  class_failingStudentsCount : Z;
  attendanceTrend : list Z;
  class_updatedAt : string
}.

Definition class_json (entry : ClassEntry) : json :=
  JObj [ ("classId", JStr (classId entry));
         ("className", str (class_className entry));
         ("subject", str (class_subject entry));
         ("averageAttendanceRate", num (averageAttendanceRate entry));
         ("totalStudents", num (totalStudents entry));
         ("dropoutRiskCount", num (class_dropoutRiskCount entry));
         ("failingStudentsCount", num (class_failingStudentsCount entry));
         ("attendanceTrend", JArr (map num (attendanceTrend entry)));
         ("updatedAt", JStr (class_updatedAt entry)) ].

(** [a ?? b] where [b] may itself be undefined. *)
Definition nullish_opt {A : Type} (a b : option A) : option A :=
  match a with
  | Some v => Some v
  | None => b
  end.

(** [Math.round(n / d)] for integers [n] and [d > 0]: the quotient rounded
    to the nearest integer, halves upwards. *)
Definition Math_round_quotient (n d : Z) : Z := (2 * n + d) / (2 * d).

Definition classes (options : SeedOptions) (currentIso : string) : list ClassEntry :=
  let baseClassName := nullish_opt (className options) (className DEFAULTS) in
  [ {| classId := "class-1";
       class_className := baseClassName;
       class_subject := nullish_opt (subject options) (subject DEFAULTS);
       averageAttendanceRate := 84;
       totalStudents := 32;
       class_dropoutRiskCount := 3;
       class_failingStudentsCount := 4;
       attendanceTrend := [88; 86; 85; 82; 84; 81; 79];
       class_updatedAt := currentIso |};
    {| classId := "class-2";
       class_className := Some "Grade 12 — Section B";
       class_subject := Some "Physics";
       averageAttendanceRate := 76;
       totalStudents := 28;
       class_dropoutRiskCount := 2;
       class_failingStudentsCount := 3;
       attendanceTrend := [82; 80; 78; 77; 76; 74; 73];
       class_updatedAt := currentIso |};
    {| classId := "class-3";
       class_className := Some "Grade 11 — Section C";
       class_subject := Some "Computer Science";
       averageAttendanceRate := 91;
       totalStudents := 30;
       class_dropoutRiskCount := 1;
       class_failingStudentsCount := 2;
       attendanceTrend := [93; 92; 91; 90; 92; 91; 91];
       class_updatedAt := currentIso |} ].

Definition dropoutRiskStudents (options : SeedOptions) : list json :=
  let baseClassName := nullish_opt (className options) (className DEFAULTS) in
  [ JObj [ ("studentId", JStr "stu-1001");
           ("name", JStr "Ananya Patel");
           ("className", str baseClassName);
           ("attendanceRate", num 62);
           ("absences", num 14);
           ("riskLevel", JStr "high");
           ("notes", JStr "Missed the last three consecutive sessions.") ];
    JObj [ ("studentId", JStr "stu-1023");
           ("name", JStr "Rahul Iyer");
           ("className", JStr "Grade 12 — Section B");
           ("attendanceRate", num 68);
           ("absences", num 11);
           ("riskLevel", JStr "medium");
           ("notes", JStr "Frequently absent on laboratory days.") ];
    JObj [ ("studentId", JStr "stu-1098");
           ("name", JStr "Priya Sharma");
           ("className", JStr "Grade 11 — Section C");
           ("attendanceRate", num 71);
           ("absences", num 9);
           ("riskLevel", JStr "medium");
           ("notes", JStr "Needs follow-up from homeroom teacher.") ] ].

Definition failingStudents (options : SeedOptions) : list json :=
  let baseClassName := nullish_opt (className options) (className DEFAULTS) in
  [ JObj [ ("studentId", JStr "stu-1015");
           ("name", JStr "Karan Desai");
           ("className", str baseClassName);
           ("averageGrade", num 54);
           ("missingAssignments", num 5);
           ("status", JStr "critical") ];
    JObj [ ("studentId", JStr "stu-1067");
           ("name", JStr "Meera Sood");
           ("className", JStr "Grade 12 — Section B");
           ("averageGrade", num 58);
           ("missingAssignments", num 3);
           ("status", JStr "warning") ];
    JObj [ ("studentId", JStr "stu-1102");
           ("name", JStr "Arjun Malhotra");
           ("className", JStr "Grade 11 — Section C");
           ("averageGrade", num 59);
           ("missingAssignments", num 4);
           ("status", JStr "warning") ] ].

Definition buildAnalyticsPayload (now : Z) (options : SeedOptions) : doc :=
  let currentIso := toISOString now in
  let classes := classes options currentIso in
  let averageAttendanceRate :=
    Math_round_quotient
      (fold_left (fun sum entry => sum + averageAttendanceRate entry) classes 0)
      (Z.of_nat (List.length classes)) in
  [ ("teacherId", Data (JStr (teacherId options)));
    ("updatedAt", ServerTimestamp);
    ("averageAttendanceRate", Data (num averageAttendanceRate));
    ("dropoutRiskCount", Data (num (Z.of_nat (List.length (dropoutRiskStudents options)))));
    ("failingStudentsCount", Data (num (Z.of_nat (List.length (failingStudents options)))));
    ("reportingPeriod", Data (JStr currentIso));
    ("classes", Data (JArr (map class_json classes)));
    ("dropoutRiskStudents", Data (JArr (dropoutRiskStudents options)));
    ("failingStudents", Data (JArr (failingStudents options))) ].

(** *** seed *)

(** A document reference: the path of its collection and its id. *)
Definition reference : Type := (string * string)%type.

(** [collection.doc(id)] *)
Definition doc_ref (w : World) (collection id : string) : M reference :=
  match doc_refuses w id with
  | Some message => throw message
  | None => ret (collection, id)
  end.

(** [ref.id]: the last segment of the document's path. *)
Definition ref_id (ref : reference) : string :=
  last (split "/" (snd ref)) (snd ref).

(** [await ref.set(d, { merge: true })] *)
Definition set (w : World) (ref : reference) (d : doc) : M unit :=
  emit (DocSet (fst ref) (snd ref) d) ;;;
  match set_rejects w (fst ref) (snd ref) with
  | Some message => throw message
  | None => ret tt
  end.

(** [JSON.parse(readFileSync(path, 'utf-8'))], [cert] and [initializeApp] *)
Definition connect (w : World) (serviceAccountPath : string) : M unit :=
  emit (ReadFile serviceAccountPath) ;;;
  match readFileSync w serviceAccountPath with
  | Throws message => throw message
  | Returns text =>
      match initializeApp w text with
      | Some message => throw message
      | None => emit AppInitialized
      end
  end.

Definition seed (w : World) (options : SeedOptions) (serviceAccountPath : string) : M unit :=
  connect w serviceAccountPath ;;;
  teacherRef <- doc_ref w "teachers" (teacherId options) ;;
  emit (Log (newline ++ "Creating teacher document for " ++ teacherId options ++ "...")) ;;;
  set w teacherRef
    [ ("displayName", Data (str (teacherName options)));
      ("createdAt", ServerTimestamp);
      ("updatedAt", ServerTimestamp) ] ;;;
  (if negb (skipSession options) then
     let sessions := "teachers/" ++ teacherId options ++ "/sessions" in
     let sessionId := nullish (sessionId options) (auto_id w) in
     let sessionToken := remove_all hyphen (generateSecureId w) in
     sessionRef <- doc_ref w sessions sessionId ;;
     docs <- buildSessionDocuments (now_session w) options sessionId sessionToken ;;
     emit (Log ("Seeding session document at teachers/" ++ teacherId options
                  ++ "/sessions/" ++ ref_id sessionRef ++ "...")) ;;;
     set w sessionRef (sessionDoc docs) ;;;
     emit (Log ("Publishing public session token at publicSessions/" ++ sessionToken ++ "...")) ;;;
     publicRef <- doc_ref w "publicSessions" sessionToken ;;
     set w publicRef (publicDoc docs)
   else ret tt) ;;;
  emit (Log ("Seeding analytics snapshot for teacher " ++ teacherId options ++ "...")) ;;;
  let analyticsPayload := buildAnalyticsPayload (now_analytics w) options in
  analyticsRef <- doc_ref w "teacherAnalytics" (teacherId options) ;;
  set w analyticsRef analyticsPayload ;;;
  emit (Log (newline ++ "Firestore seed completed successfully.")).

(** *** main *)

(** What a run leaves behind: the exit status of the process and everything
    it printed, read and wrote, in order. *)
Record Run : Type := {
  exitCode : Z;
  events : list event
}.

Definition main (w : World) : Run :=
  let body :=
    parsed <- parseArgs (argv w) ;;
    options <- coerceOptions parsed ;;
    serviceAccountPath <- detectServiceAccount w (get (parsed_serviceAccountPath parsed)) ;;
    seed w options serviceAccountPath in
  match body with
  | (Ok _, t) => {| exitCode := 0; events := t |}
  | (Throw message, t) =>
      {| exitCode := 1;
         events := (t ++ [Error (newline ++ "Failed to seed Firestore:"); Error message])%list |}
  | (Exit code, t) => {| exitCode := code; events := t |}
  end.

End Script.

(** ** A reference runtime

    An executable instance of [JsRuntime] on which the script can be run:
    numbers are the integers, [Number] reads decimal integer literals (an
    optional sign and digits; the empty string is [0], as in the language)
    and answers [NaN] for any other text, [toISOString] is the calendar
    conversion for the years 0000 to 9999 and [resolve] is the POSIX
    [path.resolve] for an absolute first segment.  The theorems below hold
    for every runtime; this one serves to evaluate the script on concrete
    runs. *)

Module Reference.

Inductive number : Type :=
  | NaN
  | Int (z : Z).

Definition decimal (z : Z) : string :=
  DecimalString.NilZero.string_of_int (Z.to_int z).

Definition digit (c : ascii) : option Z :=
  let n := nat_of_ascii c in
  if (Nat.leb 48 n && Nat.leb n 57)%bool then Some (Z.of_nat (n - 48)) else None.

Fixpoint digits (acc : Z) (s : string) : option Z :=
  match s with
  | EmptyString => Some acc
  | String c s' =>
      match digit c with
      | Some d => digits (10 * acc + d) s'
      | None => None
      end
  end.

Definition unsigned (s : string) : number :=
  match s with
  | EmptyString => NaN
  | _ => match digits 0 s with
         | Some z => Int z
         | None => NaN
         end
  end.

Definition Number (s : string) : number :=
  match s with
  | EmptyString => Int 0
  | String c s' =>
      if Ascii.eqb c "-" then
        match unsigned s' with
        | Int z => Int (- z)
        | NaN => NaN
        end
      else if Ascii.eqb c "+" then unsigned s'
      else unsigned s
  end.

Definition isNaN (x : number) : bool :=
  match x with
  | NaN => true
  | Int _ => false
  end.

Fixpoint zeros (n : nat) : string :=
  match n with
  | O => EmptyString
  | S n' => String "0" (zeros n')
  end.

Definition toFixed (x : number) (fraction : nat) : string :=
  match x with
  | NaN => "NaN"
  | Int z =>
      match fraction with
      | O => decimal z
      | _ => decimal z ++ "." ++ zeros fraction
      end
  end.

Definition jsonNumber (x : number) : string :=
  match x with
  | NaN => "null"
  | Int z => decimal z
  end.

Definition pad (width : nat) (z : Z) : string :=
  let text := decimal z in
  zeros (width - String.length text) ++ text.

Definition toISOString (ms : Z) : string :=
  let days := ms / 86400000 in
  let rest := ms mod 86400000 in
  let shifted := days + 719468 in
  let era := shifted / 146097 in
  let doe := shifted - era * 146097 in
  let yoe := (doe - doe / 1460 + doe / 36524 - doe / 146096) / 365 in
  let doy := doe - (365 * yoe + yoe / 4 - yoe / 100) in
  let mp := (5 * doy + 2) / 153 in
  let day := doy - (153 * mp + 2) / 5 + 1 in
  let month := if mp <? 10 then mp + 3 else mp - 9 in
  let year := yoe + era * 400 + (if month <=? 2 then 1 else 0) in
  pad 4 year ++ "-" ++ pad 2 month ++ "-" ++ pad 2 day
    ++ "T" ++ pad 2 (rest / 3600000)
    ++ ":" ++ pad 2 ((rest / 60000) mod 60)
    ++ ":" ++ pad 2 ((rest / 1000) mod 60)
    ++ "." ++ pad 3 (rest mod 1000) ++ "Z".

Fixpoint walk (stack : list string) (components : list string) : list string :=
  match components with
  | [] => stack
  | c :: rest =>
      if (String.eqb c "" || String.eqb c ".")%bool then walk stack rest
      else if String.eqb c ".." then walk (tl stack) rest
      else walk (c :: stack) rest
  end.

Definition resolve (segments : list string) : string :=
  let step (stack : list string) (segment : string) :=
    walk (if startsWith "/" segment then [] else stack) (split "/" segment) in
  "/" ++ String.concat "/" (rev (fold_left step segments [])).

Definition runtime : JsRuntime :=
  Build_JsRuntime number Number isNaN Int toFixed jsonNumber toISOString resolve.

End Reference.

(** ** Observations on documents, traces and identifiers *)

Section Observations.

Context `{RT : JsRuntime}.

(** [d.locationCoordinates[name]] *)
Definition coordinate (name : string) (d : doc) : option json :=
  match lookup "locationCoordinates" d with
  | Some (Data (JObj members)) => lookup name members
  | _ => None
  end.


(** The store writes of a trace, as collection and document id, in order. *)
Fixpoint writes (t : list event) : list (string * string) :=
  match t with
  | [] => []
  | DocSet collection id _ :: rest => (collection, id) :: writes rest
  | _ :: rest => writes rest
  end.

(** The first store write of a trace into a collection: its document id
    and document. *)
Fixpoint first_write (collection : string) (t : list event) : option (string * doc) :=
  match t with
  | [] => None
  | DocSet c id d :: rest =>
      if String.eqb c collection then Some (id, d) else first_write collection rest
  | _ :: rest => first_write collection rest
  end.

(** Events that stay inside the process: console output. *)
Definition is_console (e : event) : bool :=
  match e with
  | Log _ | Warn _ | Error _ => true
  | ReadFile _ | AppInitialized | DocSet _ _ _ => false
  end.

Definition is_warning (e : event) : bool :=
  match e with
  | Warn _ => true
  | _ => false
  end.

(** The names [seed] gives to the identifiers of a run. *)
Definition session_id_of (w : World) (options : SeedOptions) : string :=
  nullish (sessionId options) (auto_id w).

Definition session_token_of (w : World) : string :=
  remove_all hyphen (generateSecureId w).

Definition sessions_of (options : SeedOptions) : string :=
  "teachers/" ++ teacherId options ++ "/sessions".

Definition teacher_document (options : SeedOptions) : doc :=
  [ ("displayName", Data (str (teacherName options)));
    ("createdAt", ServerTimestamp);
    ("updatedAt", ServerTimestamp) ].

(** The run gets as far as its first write: the credential file is read,
    the app initialised and the teacher reference built. *)
Definition reaches_writes (w : World) (options : SeedOptions) (path : string) : Prop :=
  exists text,
    readFileSync w path = Returns text /\
    initializeApp w text = None /\
    doc_refuses w (teacherId options) = None.

(** Some source of [detectServiceAccount] holds a candidate: the explicit
    path exists, the path of the environment variable exists, or the scan of
    the repository root finds a file. *)
Definition exists_from_cwd (w : World) (path : option string) : bool :=
  match cwd w with
  | Returns directory => existsSync w (resolve [directory; show path])
  | Throws _ => false
  end.

Definition candidate_exists (w : World) (explicitPath : option string) : bool :=
  (truthy explicitPath && exists_from_cwd w explicitPath)
  || (truthy (FIREBASE_SERVICE_ACCOUNT_PATH w)
        && exists_from_cwd w (FIREBASE_SERVICE_ACCOUNT_PATH w))
  || match readdirSync w (repoRoot w) with
     | Returns files => negb (Nat.eqb (List.length (candidates files)) 0)
     | Throws _ => false
     end.

Definition throws {A : Type} (m : M A) : bool :=
  match returned m with
  | Throw _ => true
  | _ => false
  end.

End Observations.

(** The fields of the QR payload, in the order the builder writes them. *)
Definition qr_fields : list string :=
  [ "sessionId"; "sessionToken"; "className"; "subject"; "scheduledFor";
    "teacherId"; "durationMinutes"; "locationCoordinates" ].

(** The shape of a version-4 UUID as [randomUUID] prints it: five groups of
    8, 4, 4, 4 and 12 lower-case hexadecimal digits separated by hyphens. *)
Definition is_hex (c : ascii) : bool :=
  let n := nat_of_ascii c in
  (Nat.leb 48 n && Nat.leb n 57) || (Nat.leb 97 n && Nat.leb n 102).

Fixpoint all_hex (s : string) : bool :=
  match s with
  | EmptyString => true
  | String c s' => is_hex c && all_hex s'
  end.

Definition is_uuid (u : string) : bool :=
  match split hyphen u with
  | [a; b; c; d; e] =>
      Nat.eqb (String.length a) 8 && Nat.eqb (String.length b) 4
      && Nat.eqb (String.length c) 4 && Nat.eqb (String.length d) 4
      && Nat.eqb (String.length e) 12
      && all_hex a && all_hex b && all_hex c && all_hex d && all_hex e
  | _ => false
  end.

(** ** Concrete runs *)

Module Demo.

Definition credentials : string := "/repo/code/demo-firebase-adminsdk-1.json".

(** A developer's checkout: the credential file sits in the repository
    root, the store accepts every write it is listed to accept. *)
Definition world (args : list string) (uuid : option string) (auto : string)
    (rejects : string -> string -> option string) (clock : Z) : World := {|
  argv := args;
  cwd := Returns "/repo/code/frontend";
  script_dirname := "/repo/code/frontend/scripts";
  FIREBASE_SERVICE_ACCOUNT_PATH := None;
  existsSync := fun path => String.eqb path credentials;
  readdirSync := fun dir =>
    if String.eqb dir "/repo/code"
    then Returns ["README.md"; "demo-firebase-adminsdk-1.json"; "frontend"]
    else Throws "ENOENT: no such file or directory, scandir";
  readFileSync := fun path =>
    if String.eqb path credentials then Returns "{}"
    else Throws "ENOENT: no such file or directory";
  initializeApp := fun _ => None;
  randomUUID := uuid;
  Math_random_toString36 := fun _ => "0.4fzyo82mvyr";
  auto_id := auto;
  doc_refuses := fun id =>
    if String.eqb id "" then Some "Value for argument documentPath must be a non-empty string."
    else None;
  set_rejects := rejects;
  now_session := clock;
  now_analytics := clock + 250
|}.

Definition accepts_all (collection id : string) : option string := None.

Definition teacher_unavailable (collection id : string) : option string :=
  if String.eqb collection "teachers" then Some "14 UNAVAILABLE: No connection established"
  else None.

Definition uuid : string := "3f2b8c1e-9d4a-4e6f-8a7b-1c2d3e4f5a6b".
Definition token : string := "3f2b8c1e9d4a4e6f8a7b1c2d3e4f5a6b".
Definition generated_id : string := "Jk3xQ9ZbT2mLpW8sVc4R".
Definition clock : Z := 1700000000000.

(** The arguments every run below starts with. *)
Definition arguments : list string :=
  ["--teacher"; "abc123"; "--class"; "Grade 9A"; "--location"; "12,77"].

(** The options [coerceOptions] makes of [arguments], up to the skip flag
    and the session id. *)
Definition with_session (skip : bool) (id : option string) : SeedOptions := {|
  teacherId := "abc123";
  teacherName := Some "Demo Teacher";
  className := Some "Grade 9A";
  subject := Some "Mathematics";
  skipSession := skip;
  sessionId := id;
  location := Some "12,77"
|}.

Definition options : SeedOptions := with_session false None.

Definition with_location (text : string) : SeedOptions := {|
  teacherId := "abc123";
  teacherName := Some "Demo Teacher";
  className := Some "Grade 9A";
  subject := Some "Mathematics";
  skipSession := false;
  sessionId := None;
  location := Some text
|}.



(** A plain run. *)
Definition plain : World :=
  world arguments (Some uuid) generated_id accepts_all clock.



(** The caller passes as [--session-id] the very text the token will be. *)
Definition colliding : World :=
  world (arguments ++ ["--session-id"; token]) (Some uuid) generated_id accepts_all clock.

(** The caller passes [--session-id math-101]. *)
Definition named : World :=
  world (arguments ++ ["--session-id"; "math-101"]) (Some uuid) generated_id accepts_all clock.

(** [--skip-session] while the store is unreachable for the teacher write. *)
Definition unreachable : World :=
  world (arguments ++ ["--skip-session"]) (Some uuid) generated_id teacher_unavailable clock.

(** [--skip-session] with the store reachable. *)
Definition skipping : World :=
  world (arguments ++ ["--skip-session"]) (Some uuid) generated_id accepts_all clock.

(** An explicit credential path that does not exist. *)
Definition misdirected : World :=
  world (arguments ++ ["--service-account"; "missing.json"])
    (Some uuid) generated_id accepts_all clock.

(** No [--teacher], and a flag the parser does not know. *)
Definition anonymous : World :=
  world ["--name"; "Ada"; "--verbose"] (Some uuid) generated_id accepts_all clock.

Definition anonymous_parsed : ParsedArgs := {|
  parsed_teacherId := None;
  parsed_teacherName := Some (Some "Ada");
  parsed_className := None;
  parsed_subject := None;
  parsed_skipSession := None;
  parsed_sessionId := None;
  parsed_location := None;
  parsed_help := None;
  parsed_serviceAccountPath := None
|}.

(** The documents [seed] builds in a world for given options. *)
Definition built (w : World) (options : SeedOptions) : SessionDocuments :=
  match returned (buildSessionDocuments (RT := Reference.runtime) (now_session w) options
                    (session_id_of w options) (session_token_of w)) with
  | Ok docs => docs
  | _ => {| sessionDoc := []; publicDoc := [] |}
  end.

End Demo.

(** ** Further observations *)

(** The string-valued properties of [parsed]. *)
Definition value_fields (parsed : ParsedArgs) : list (option (option string)) :=
  [ parsed_teacherId parsed; parsed_teacherName parsed; parsed_className parsed;
    parsed_subject parsed; parsed_sessionId parsed; parsed_location parsed;
    parsed_serviceAccountPath parsed ].

(** The keys [parseArgs] has a case for. *)
Definition known_flags : list string :=
  [ "teacher"; "name"; "class"; "subject"; "session-id"; "location";
    "service-account"; "skip-session"; "help"; "h" ].

Section FurtherObservations.

Context `{RT : JsRuntime}.

(** What [parseArgs] has stored comes from the arguments. *)
Definition from_arguments (argv : list string) (parsed : ParsedArgs) : Prop :=
  (forall v, In (Some (Some v)) (value_fields parsed) -> In v argv) /\
  (parsed_help parsed <> None -> In "--help" argv \/ In "--h" argv) /\
  (parsed_skipSession parsed <> None -> In "--skip-session" argv).

(** A warning of [parseArgs] about a [--] word of the arguments that is none
    of the known flags. *)
Definition unknown_flag_warning (argv : list string) (e : event) : Prop :=
  exists key,
    e = Warn ("Ignoring unknown flag --" ++ key) /\
    In ("--" ++ key) argv /\
    ~ In key known_flags.

(** The writes [seed] sets out to issue, in its order. *)
Definition planned_writes (w : World) (options : SeedOptions) : list (string * string) :=
  (("teachers", teacherId options)
   :: (if skipSession options then []
       else [ (sessions_of options, session_id_of w options);
              ("publicSessions", session_token_of w) ]))
  ++ [("teacherAnalytics", teacherId options)].

Definition acknowledged (w : World) (write : string * string) : Prop :=
  set_rejects w (fst write) (snd write) = None.

(** The part of the plan that [seed] can get to when no write is rejected:
    it ends before the session write when the session reference or the
    documents cannot be built, and before the public write when the public
    reference cannot be built. *)
Definition feasible_writes (w : World) (options : SeedOptions) : list (string * string) :=
  if skipSession options then planned_writes w options
  else
    match doc_refuses w (session_id_of w options),
          returned (buildSessionDocuments (now_session w) options
                      (session_id_of w options) (session_token_of w)),
          doc_refuses w (session_token_of w) with
    | None, Ok _, None => planned_writes w options
    | None, Ok _, Some _ =>
        [ ("teachers", teacherId options);
          (sessions_of options, session_id_of w options) ]
    | _, _, _ => [("teachers", teacherId options)]
    end.

(** A list of writes as far as the store lets it go: up to and including
    the first write it rejects. *)
Fixpoint through_first_rejected (w : World) (plan : list (string * string))
  : list (string * string) :=
  match plan with
  | [] => []
  | write :: rest =>
      match set_rejects w (fst write) (snd write) with
      | None => write :: through_first_rejected w rest
      | Some _ => [write]
      end
  end.

(** Events that are not written to the error stream. *)
Definition not_error (e : event) : bool :=
  match e with
  | Error _ => false
  | _ => true
  end.

(** Every write of the trace comes after a file read and after the
    initialisation of the app; [read] and [initialised] say whether these
    happened before the trace starts. *)
Fixpoint writes_follow_connection (read initialised : bool) (t : list event) : bool :=
  match t with
  | [] => true
  | ReadFile _ :: rest => writes_follow_connection true initialised rest
  | AppInitialized :: rest => writes_follow_connection read true rest
  | DocSet _ _ _ :: rest =>
      read && initialised && writes_follow_connection read initialised rest
  | _ :: rest => writes_follow_connection read initialised rest
  end.

(** The two lines [main] prints when it catches an error. *)
Definition failure_lines (message : string) : list event :=
  [Error (newline ++ "Failed to seed Firestore:"); Error message].







End FurtherObservations.

(** ** Further concrete runs *)

Module Cases.

Import Demo.

(** Words without a leading [--]. *)
Definition positional : list string := ["-h"; "notes.txt"; "abc123"].

(** [--help] and nothing else. *)
Definition helping : World :=
  world ["--help"] (Some uuid) generated_id accepts_all clock.

Definition helping_parsed : ParsedArgs := {|
  parsed_teacherId := None;
  parsed_teacherName := None;
  parsed_className := None;
  parsed_subject := None;
  parsed_skipSession := None;
  parsed_sessionId := None;
  parsed_location := None;
  parsed_help := Some true;
  parsed_serviceAccountPath := None
|}.

(** What [parseArgs] makes of [arguments]. *)
Definition plain_parsed : ParsedArgs := {|
  parsed_teacherId := Some (Some "abc123");
  parsed_teacherName := None;
  parsed_className := Some (Some "Grade 9A");
  parsed_subject := None;
  parsed_skipSession := None;
  parsed_sessionId := None;
  parsed_location := Some (Some "12,77");
  parsed_help := None;
  parsed_serviceAccountPath := None
|}.


(** The plain options without a location. *)
Definition nowhere : SeedOptions := {|
  teacherId := "abc123";
  teacherName := Some "Demo Teacher";
  className := Some "Grade 9A";
  subject := Some "Mathematics";
  skipSession := false;
  sessionId := None;
  location := None
|}.

(** The store takes the teacher write and rejects the session write. *)
Definition session_unavailable (collection id : string) : option string :=
  if String.eqb collection "teachers/abc123/sessions"
  then Some "14 UNAVAILABLE: No connection established"
  else None.

Definition stalled : World :=
  world arguments (Some uuid) generated_id session_unavailable clock.

(** What the run in the world [unreachable] did before its only write. *)
Definition unreachable_before : list (event (RT := Reference.runtime)) :=
  [ Log "Using service account file: /repo/code/demo-firebase-adminsdk-1.json";
    ReadFile credentials;
    AppInitialized;
    Log (newline ++ "Creating teacher document for abc123...") ].

End Cases.

(** * Properties *)

Section BuilderProperties.

Context `{RT : JsRuntime}.

(** ** buildSessionDocuments *)

(** The builder is total: it returns both documents or throws the location
    error, and it prints, reads and writes nothing. *)
Lemma buildSessionDocuments_total :
  forall (now : Z) (options : SeedOptions) (sessionId sessionToken : string),
    (exists docs, buildSessionDocuments now options sessionId sessionToken = (Ok docs, []))
    \/ buildSessionDocuments now options sessionId sessionToken
       = (Throw (invalid_location options), []).
Proof.
  intros now options sessionId sessionToken.
  unfold buildSessionDocuments.
  destruct (isNaN _ || isNaN _).
  - right. reflexivity.
  - left. eexists. reflexivity.
Qed.

Lemma buildSessionDocuments_trace :
  forall (now : Z) (options : SeedOptions) (sessionId sessionToken : string),
    trace (buildSessionDocuments now options sessionId sessionToken) = [].
Proof.
  intros now options sessionId sessionToken.
  destruct (buildSessionDocuments_total now options sessionId sessionToken) as [[docs H] | H];
    rewrite H; reflexivity.
Qed.

(** The pieces of [split]: a string without the separator is its own only
    piece, and a separator-free prefix before a separator is the first piece. *)
Lemma split_whole :
  forall (c : ascii) (s : string), occurs c s = false -> split c s = [s].
Proof.
  intros c. induction s as [| d s IH]; cbn [occurs split]; intros H; [reflexivity |].
  apply orb_false_iff in H. destruct H as [Hd Hs].
  rewrite Hd, (IH Hs). reflexivity.
Qed.

Lemma split_first :
  forall (c : ascii) (a r : string),
    occurs c a = false -> split c (a ++ String c r) = a :: split c r.
Proof.
  intros c. induction a as [| d a IH]; intros r H.
  - cbn. rewrite Ascii.eqb_refl. reflexivity.
  - cbn [occurs] in H. apply orb_false_iff in H. destruct H as [Hd Ha].
    cbn [append split]. rewrite Hd, (IH r Ha). reflexivity.
Qed.

(** C1. Take any location string.  When it contains a comma, its components
    are the text before the first comma and the text from there to the next
    comma or the end: if [Number] reads both as numbers, the builder returns
    documents whose coordinate object holds these two numbers as latitude and
    longitude; if it reads either as NaN, the builder throws the
    [Invalid --location value] error and returns no document.  When the
    string contains no comma, it is its only component: a NaN there throws
    the same error, and a number becomes the latitude, the longitude being
    [Number('0')]. *)
Theorem buildSessionDocuments_location :
  forall (now : Z) (options : SeedOptions) (sessionId sessionToken s : string),
    location options = Some s ->
    (forall latitudeRaw longitudeRaw rest : string,
       s = latitudeRaw ++ "," ++ longitudeRaw ++ rest ->
       occurs comma latitudeRaw = false ->
       occurs comma longitudeRaw = false ->
       rest = "" \/ (exists tail, rest = "," ++ tail) ->
       (isNaN (Number latitudeRaw) = false ->
        isNaN (Number longitudeRaw) = false ->
        exists docs,
          buildSessionDocuments now options sessionId sessionToken = (Ok docs, []) /\
          coordinate "latitude" (sessionDoc docs) = Some (JNum (Number latitudeRaw)) /\
          coordinate "longitude" (sessionDoc docs) = Some (JNum (Number longitudeRaw)) /\
          lookup "locationCoordinates" (publicDoc docs)
            = lookup "locationCoordinates" (sessionDoc docs))
       /\
       (isNaN (Number latitudeRaw) = true \/ isNaN (Number longitudeRaw) = true ->
        buildSessionDocuments now options sessionId sessionToken
          = (Throw ("Invalid --location value: " ++ s ++ ". Expected format is "
                      ++ dquote ++ "lat,lng" ++ dquote), [])))
    /\
    (occurs comma s = false ->
       (isNaN (Number s) = true ->
        buildSessionDocuments now options sessionId sessionToken
          = (Throw ("Invalid --location value: " ++ s ++ ". Expected format is "
                      ++ dquote ++ "lat,lng" ++ dquote), []))
       /\
       (isNaN (Number s) = false ->
        isNaN (Number "0") = false ->
        exists docs,
          buildSessionDocuments now options sessionId sessionToken = (Ok docs, []) /\
          coordinate "latitude" (sessionDoc docs) = Some (JNum (Number s)) /\
          coordinate "longitude" (sessionDoc docs) = Some (JNum (Number "0")) /\
          lookup "locationCoordinates" (publicDoc docs)
            = lookup "locationCoordinates" (sessionDoc docs))).
Proof.
  intros now options sessionId sessionToken s Hloc.
  unfold buildSessionDocuments, invalid_location.
  rewrite Hloc. cbn [nullish show].
  split.
  - intros latitudeRaw longitudeRaw rest Hs Hlat Hlng Hrest.
    assert (Hsplit : exists others,
              split comma s = latitudeRaw :: longitudeRaw :: others).
    { rewrite Hs. cbn [append]. rewrite (split_first comma _ _ Hlat).
      destruct Hrest as [-> | [tail ->]].
      - exists []. replace (longitudeRaw ++ "") with longitudeRaw
          by (clear; induction longitudeRaw as [| c l IH]; cbn; [| rewrite <- IH]; reflexivity).
        rewrite (split_whole comma _ Hlng). reflexivity.
      - exists (split comma tail). cbn [append].
        rewrite (split_first comma _ _ Hlng). reflexivity. }
    destruct Hsplit as [others Hsplit].
    rewrite Hsplit. cbn [nth_error nullish].
    split.
    + intros Hlatitude Hlongitude. rewrite Hlatitude, Hlongitude. cbn [orb].
      eexists. split; [reflexivity |]. repeat split.
    + intros [Hlatitude | Hlongitude].
      * rewrite Hlatitude. reflexivity.
      * rewrite Hlongitude, orb_true_r. reflexivity.
  - intros Hwhole. rewrite (split_whole comma _ Hwhole). cbn [nth_error nullish].
    split.
    + intros Hlatitude. rewrite Hlatitude. reflexivity.
    + intros Hlatitude Hzero. rewrite Hlatitude, Hzero. cbn [orb].
      eexists. split; [reflexivity |]. repeat split.
Qed.

(** X16. A location without a comma: the missing second component is read
    as ['0'], so the longitude is [Number('0')]. *)
Remark buildSessionDocuments_single_component :
  forall (now : Z) (options : SeedOptions) (sessionId sessionToken s only : string),
    location options = Some s ->
    split comma s = [only] ->
    isNaN (Number only) = false ->
    isNaN (Number "0") = false ->
    exists docs,
      buildSessionDocuments now options sessionId sessionToken = (Ok docs, []) /\
      coordinate "latitude" (sessionDoc docs) = Some (JNum (Number only)) /\
      coordinate "longitude" (sessionDoc docs) = Some (JNum (Number "0")).
Proof.
  intros now options sessionId sessionToken s only Hloc Hsplit Hlat Hzero.
  unfold buildSessionDocuments.
  rewrite Hloc. cbn [nullish show]. rewrite Hsplit. cbn [nth_error nullish].
  rewrite Hlat, Hzero. cbn [orb].
  eexists. split; [reflexivity |]. split; reflexivity.
Qed.

(** C7. Every session document the builder returns is scheduled at the
    current time plus 15 minutes, lasts 45 minutes and expects 30
    attendees. *)
Theorem buildSessionDocuments_schedule :
  forall (now : Z) (options : SeedOptions) (sessionId sessionToken : string)
         (docs : SessionDocuments),
    returned (buildSessionDocuments now options sessionId sessionToken) = Ok docs ->
    lookup "scheduledFor" (sessionDoc docs)
      = Some (Data (JStr (toISOString (now + 15 * 60 * 1000)))) /\
    lookup "durationMinutes" (sessionDoc docs) = Some (Data (num 45)) /\
    lookup "expectedAttendance" (sessionDoc docs) = Some (Data (num 30)).
Proof.
  intros now options sessionId sessionToken docs.
  unfold buildSessionDocuments.
  destruct (isNaN _ || isNaN _); cbn [returned fst throw ret]; intros H.
  - discriminate H.
  - injection H as <-. repeat split.
Qed.

(** C4 (amended). The QR text is the JSON serialisation of an object with
    exactly the fields sessionId, sessionToken, className, subject,
    scheduledFor, teacherId, durationMinutes and locationCoordinates.  Each of
    them but teacherId is a field of the session document with the same
    value, teacherId is the teacher id of the options, and the session
    document's location, status, expectedAttendance, attendees, qrCodeData
    and createdAt are not fields of the payload. *)
Theorem buildSessionDocuments_qr_payload :
  forall (now : Z) (options : SeedOptions) (sessionId sessionToken : string)
         (docs : SessionDocuments),
    returned (buildSessionDocuments now options sessionId sessionToken) = Ok docs ->
    exists payload : list (string * json),
      lookup "qrCodeData" (sessionDoc docs) = Some (Data (JStr (JSON_stringify payload))) /\
      keys payload = qr_fields /\
      (forall key, In key qr_fields -> key <> "teacherId" ->
         exists value,
           lookup key payload = Some value /\
           lookup key (sessionDoc docs) = Some (Data value)) /\
      lookup "teacherId" payload = Some (JStr (teacherId options)) /\
      lookup "teacherId" (sessionDoc docs) = None /\
      (forall key,
         In key ["location"; "status"; "expectedAttendance"; "attendees";
                 "qrCodeData"; "createdAt"] ->
         lookup key payload = None /\ lookup key (sessionDoc docs) <> None).
Proof.
  intros now options sessionId sessionToken docs.
  unfold buildSessionDocuments.
  destruct (isNaN _ || isNaN _); cbn [returned fst throw ret]; intros H.
  - discriminate H.
  - injection H as <-. cbn [sessionDoc].
    eexists. split; [reflexivity |].
    split; [reflexivity |].
    split.
    { intros key Hin Hkey. cbn [qr_fields In] in Hin.
      repeat (destruct Hin as [<- | Hin];
              [first [ exfalso; apply Hkey; reflexivity
                     | eexists; split; reflexivity ] |]).
      contradiction. }
    split; [reflexivity |].
    split; [reflexivity |].
    intros key Hin. cbn [In] in Hin.
    repeat (destruct Hin as [<- | Hin]; [split; [reflexivity | discriminate] |]).
    contradiction.
Qed.

(** ** buildAnalyticsPayload *)


End BuilderProperties.

Section ServiceAccountProperties.

Context `{RT : JsRuntime}.

(** ** detectServiceAccount *)

(** C6 (amended). The sources are tried in the order explicit path,
    environment variable, scan of the repository root, and the first source
    that is supplied decides alone: an explicit path is resolved against the
    working directory, returned when it exists and a not-found error when it
    does not; without one the environment path is treated the same way; in
    both cases the error of a working directory that cannot be determined
    is passed on; without either path the repository root is listed, the
    error of a failed listing is passed on, the first listed file whose name
    contains [firebase-adminsdk] and ends in [.json] is returned and logged,
    and the absence of such a file is an error.  So the function throws
    exactly when the deciding source holds no file or cannot be read. *)
Theorem detectServiceAccount_order :
  forall (w : World) (explicitPath : option string),
    let envPath := FIREBASE_SERVICE_ACCOUNT_PATH w in
    (forall directory,
       cwd w = Returns directory ->
       let explicit := resolve [directory; show explicitPath] in
       let fromEnv := resolve [directory; show envPath] in
       (truthy explicitPath = true ->
          (existsSync w explicit = true ->
             detectServiceAccount w explicitPath = (Ok explicit, [])) /\
          (existsSync w explicit = false ->
             detectServiceAccount w explicitPath
               = (Throw (explicit_not_found explicit), [])))
       /\
       (truthy explicitPath = false -> truthy envPath = true ->
          (existsSync w fromEnv = true ->
             detectServiceAccount w explicitPath = (Ok fromEnv, [])) /\
          (existsSync w fromEnv = false ->
             detectServiceAccount w explicitPath = (Throw (env_not_found fromEnv), []))))
    /\
    (forall message,
       cwd w = Throws message ->
       truthy explicitPath = true \/ truthy envPath = true ->
       detectServiceAccount w explicitPath = (Throw message, []))
    /\
    (truthy explicitPath = false -> truthy envPath = false ->
       (forall message,
          readdirSync w (repoRoot w) = Throws message ->
          detectServiceAccount w explicitPath = (Throw message, [])) /\
       (forall files first others,
          readdirSync w (repoRoot w) = Returns files ->
          filter is_candidate files = first :: others ->
          detectServiceAccount w explicitPath
            = (Ok (resolve [repoRoot w; first]),
               [Log ("Using service account file: " ++ resolve [repoRoot w; first])])) /\
       (forall files,
          readdirSync w (repoRoot w) = Returns files ->
          filter is_candidate files = [] ->
          detectServiceAccount w explicitPath = (Throw none_found, [])))
    /\
    (throws (detectServiceAccount w explicitPath) = true <->
       (truthy explicitPath = true
        /\ ((exists message, cwd w = Throws message)
            \/ (exists directory,
                  cwd w = Returns directory /\
                  existsSync w (resolve [directory; show explicitPath]) = false)))
       \/ (truthy explicitPath = false /\ truthy envPath = true
           /\ ((exists message, cwd w = Throws message)
               \/ (exists directory,
                     cwd w = Returns directory /\
                     existsSync w (resolve [directory; show envPath]) = false)))
       \/ (truthy explicitPath = false /\ truthy envPath = false
           /\ ((exists message, readdirSync w (repoRoot w) = Throws message)
               \/ (exists files,
                     readdirSync w (repoRoot w) = Returns files /\
                     filter is_candidate files = [])))).
Proof.
  intros w explicitPath envPath.
  unfold detectServiceAccount, candidates, throws.
  fold envPath.
  destruct (truthy explicitPath) eqn:Hexplicit.
  - destruct (cwd w) as [directory | failure] eqn:Hcwd.
    + destruct (existsSync w (resolve [directory; show explicitPath])) eqn:Hexists;
        cbn [negb returned fst ret throw].
      * split.
        { intros directory' E. injection E as <-. cbn zeta.
          rewrite Hexists.
          split; [intros _; split; [reflexivity | intros E; discriminate E] |].
          intros E; discriminate E. }
        split; [intros message E; discriminate E |].
        split; [intros E; discriminate E |].
        split; [intros E; discriminate E |].
        intros [[_ [[message E] | [directory' [E E']]]] | [[E _] | [E _]]];
          try discriminate E.
        injection E as <-. rewrite Hexists in E'. discriminate E'.
      * split.
        { intros directory' E. injection E as <-. cbn zeta.
          rewrite Hexists.
          split; [intros _; split; [intros E; discriminate E | reflexivity] |].
          intros E; discriminate E. }
        split; [intros message E; discriminate E |].
        split; [intros E; discriminate E |].
        split; [| reflexivity].
        intros _. left. split; [reflexivity |].
        right. exists directory. split; [reflexivity | exact Hexists].
    + cbn [returned fst throw].
      split; [intros directory E; discriminate E |].
      split; [intros message E _; injection E as <-; reflexivity |].
      split; [intros E; discriminate E |].
      split; [| reflexivity].
      intros _. left. split; [reflexivity |]. left. exists failure. reflexivity.
  - destruct (truthy envPath) eqn:Henv.
    + destruct (cwd w) as [directory | failure] eqn:Hcwd.
      * destruct (existsSync w (resolve [directory; show envPath])) eqn:Hexists;
          cbn [negb returned fst ret throw].
        -- split.
           { intros directory' E. injection E as <-. cbn zeta.
             rewrite Hexists.
             split; [intros E; discriminate E |].
             intros _ _; split; [reflexivity | intros E; discriminate E]. }
           split; [intros message E; discriminate E |].
           split; [intros _ E; discriminate E |].
           split; [intros E; discriminate E |].
           intros [[E _] | [[_ [_ [[message E] | [directory' [E E']]]]] | [_ [E _]]]];
             try discriminate E.
           injection E as <-. rewrite Hexists in E'. discriminate E'.
        -- split.
           { intros directory' E. injection E as <-. cbn zeta.
             rewrite Hexists.
             split; [intros E; discriminate E |].
             intros _ _; split; [intros E; discriminate E | reflexivity]. }
           split; [intros message E; discriminate E |].
           split; [intros _ E; discriminate E |].
           split; [| reflexivity].
           intros _. right. left. split; [reflexivity |]. split; [reflexivity |].
           right. exists directory. split; [reflexivity | exact Hexists].
      * cbn [returned fst throw].
        split; [intros directory E; discriminate E |].
        split; [intros message E _; injection E as <-; reflexivity |].
        split; [intros _ E; discriminate E |].
        split; [| reflexivity].
        intros _. right. left. split; [reflexivity |]. split; [reflexivity |].
        left. exists failure. reflexivity.
    + split.
      { intros directory _. cbn zeta.
        split; [intros E; discriminate E | intros _ E; discriminate E]. }
      split; [intros message _ [E | E]; discriminate E |].
      destruct (readdirSync w (repoRoot w)) as [files | failure] eqn:Hlist.
      * destruct (filter is_candidate files) as [| first others] eqn:Hscan; cbn.
        -- split.
           { intros _ _. split; [intros message E; discriminate E |].
             split.
             - intros files' first' others' E E'. injection E as <-.
               rewrite Hscan in E'. discriminate E'.
             - intros files' E _. reflexivity. }
           split; [| reflexivity].
           intros _. right. right. split; [reflexivity |]. split; [reflexivity |].
           right. exists files. split; [reflexivity | exact Hscan].
        -- split.
           { intros _ _. split; [intros message E; discriminate E |].
             split.
             - intros files' first' others' E E'. injection E as <-.
               rewrite Hscan in E'. injection E' as <- <-. reflexivity.
             - intros files' E E'. injection E as <-.
               rewrite Hscan in E'. discriminate E'. }
           split; [intros E; discriminate E |].
           intros [[E _] | [[_ [E _]] | [_ [_ [[message E] | [files' [E E']]]]]]];
             try discriminate E.
           injection E as <-. rewrite Hscan in E'. discriminate E'.
      * cbn. split.
        { intros _ _. split; [intros message E; injection E as <-; reflexivity |].
          split.
          - intros files first others E. discriminate E.
          - intros files E. discriminate E. }
        split; [| reflexivity].
        intros _. right. right. split; [reflexivity |]. split; [reflexivity |].
        left. exists failure. reflexivity.
Qed.

End ServiceAccountProperties.

Section OrchestratorProperties.

Context `{RT : JsRuntime}.

(** ** The trace monad *)

Lemma trace_bind :
  forall (A B : Type) (m : M A) (k : A -> M B),
    trace (bind m k)
    = (trace m ++ match returned m with
                  | Ok a => trace (k a)
                  | _ => []
                  end)%list.
Proof.
  intros A B [[a | message | code] t] k; cbn.
  - destruct (k a); reflexivity.
  - rewrite app_nil_r. reflexivity.
  - rewrite app_nil_r. reflexivity.
Qed.

Lemma returned_bind :
  forall (A B : Type) (m : M A) (k : A -> M B),
    returned (bind m k)
    = match returned m with
      | Ok a => returned (k a)
      | Throw message => Throw message
      | Exit code => Exit code
      end.
Proof.
  intros A B [[a | message | code] t] k; cbn; try reflexivity.
  destruct (k a); reflexivity.
Qed.

Lemma in_trace_bind :
  forall (A B : Type) (m : M A) (k : A -> M B) (e : event),
    In e (trace (bind m k)) ->
    In e (trace m) \/ exists a, returned m = Ok a /\ In e (trace (k a)).
Proof.
  intros A B m k e H. rewrite trace_bind in H.
  apply in_app_or in H. destruct H as [H | H]; [left; exact H |].
  destruct (returned m) as [a | message | code]; [| contradiction | contradiction].
  right. exists a. split; [reflexivity | exact H].
Qed.

Lemma writes_app :
  forall t u : list event, writes (t ++ u) = (writes t ++ writes u)%list.
Proof.
  induction t as [| e t IH]; intros u; [reflexivity |].
  destruct e; cbn; rewrite IH; reflexivity.
Qed.

Lemma first_write_In :
  forall (collection id : string) (d : doc) (t : list event),
    first_write collection t = Some (id, d) -> In (DocSet collection id d) t.
Proof.
  intros collection id d. induction t as [| e t IH]; cbn; [discriminate |].
  destruct e as [text | text | text | path | | c i d']; try (intros H; right; exact (IH H)).
  destruct (String.eqb c collection) eqn:E.
  - intros H. injection H as <- <-. apply String.eqb_eq in E. subst c. left. reflexivity.
  - intros H. right. exact (IH H).
Qed.

(** ** The steps of seed *)

Lemma connect_writes_nothing :
  forall (w : World) (path collection id : string) (d : doc),
    ~ In (DocSet collection id d) (trace (connect w path)).
Proof.
  intros w path collection id d. unfold connect.
  destruct (readFileSync w path) as [text | message]; cbn.
  - destruct (initializeApp w text); cbn; intros [H | H]; try discriminate H;
      try contradiction; destruct H as [H | H]; try discriminate H; contradiction.
  - intros [H | H]; [discriminate H | contradiction].
Qed.

Lemma doc_ref_silent :
  forall (w : World) (collection id : string), trace (doc_ref w collection id) = [].
Proof.
  intros w collection id. unfold doc_ref. destruct (doc_refuses w id); reflexivity.
Qed.

Lemma doc_ref_returns :
  forall (w : World) (collection id : string) (ref : reference),
    returned (doc_ref w collection id) = Ok ref -> ref = (collection, id).
Proof.
  intros w collection id ref. unfold doc_ref.
  destruct (doc_refuses w id); cbn; intros H; [discriminate H |].
  injection H as <-. reflexivity.
Qed.

Lemma set_writes :
  forall (w : World) (ref : reference) (d : doc) (e : event),
    In e (trace (set w ref d)) -> e = DocSet (fst ref) (snd ref) d.
Proof.
  intros w ref d e. unfold set.
  destruct (set_rejects w (fst ref) (snd ref)); cbn;
    intros [H | H]; try contradiction; symmetry; exact H.
Qed.

Lemma buildSessionDocuments_returns :
  forall (now : Z) (options : SeedOptions) (sessionId sessionToken : string)
         (docs : SessionDocuments),
    returned (buildSessionDocuments now options sessionId sessionToken) = Ok docs ->
    buildSessionDocuments now options sessionId sessionToken = (Ok docs, []).
Proof.
  intros now options sessionId sessionToken docs H.
  destruct (buildSessionDocuments_total now options sessionId sessionToken) as [[docs' E] | E];
    rewrite E in H |- *; cbn in H; [| discriminate H].
  injection H as <-. reflexivity.
Qed.

(** ** The writes of seed *)

Ltac step H a R :=
  apply in_trace_bind in H; destruct H as [H | [a [R H]]].

(** Every store write of [seed] is one of its four: the teacher document,
    the session document, the public session document, the analytics
    snapshot; the two in the middle only when the session is not skipped and
    the builder returned. *)
Lemma seed_writes :
  forall (w : World) (options : SeedOptions) (path collection id : string) (d : doc),
    In (DocSet collection id d) (trace (seed w options path)) ->
    (collection = "teachers" /\ id = teacherId options /\ d = teacher_document options)
    \/ (skipSession options = false /\
        exists docs,
          buildSessionDocuments (now_session w) options
            (session_id_of w options) (session_token_of w) = (Ok docs, []) /\
          ((collection = sessions_of options /\ id = session_id_of w options
            /\ d = sessionDoc docs)
           \/ (collection = "publicSessions" /\ id = session_token_of w
               /\ d = publicDoc docs)))
    \/ (collection = "teacherAnalytics" /\ id = teacherId options
        /\ d = buildAnalyticsPayload (now_analytics w) options).
Proof.
  intros w options path collection id d H.
  unfold seed in H.
  step H u1 R1. { exfalso. exact (connect_writes_nothing _ _ _ _ _ H). }
  step H teacherRef R2. { rewrite doc_ref_silent in H. contradiction. }
  apply doc_ref_returns in R2. subst teacherRef.
  step H u3 R3. { destruct H as [H | []]. discriminate H. }
  step H u4 R4. { apply set_writes in H. injection H as -> -> ->. left. repeat split. }
  step H u5 R5.
  { destruct (skipSession options) eqn:Hskip; cbn [negb] in H; [contradiction |].
    right. left. split; [reflexivity |].
    step H sessionRef R6. { rewrite doc_ref_silent in H. contradiction. }
    apply doc_ref_returns in R6. subst sessionRef.
    step H docs R7. { rewrite buildSessionDocuments_trace in H. contradiction. }
    apply buildSessionDocuments_returns in R7.
    exists docs. split; [exact R7 |].
    step H u8 R8. { destruct H as [H | []]. discriminate H. }
    step H u9 R9. { apply set_writes in H. injection H as -> -> ->. left. repeat split. }
    step H u10 R10. { destruct H as [H | []]. discriminate H. }
    step H publicRef R11. { rewrite doc_ref_silent in H. contradiction. }
    apply doc_ref_returns in R11. subst publicRef.
    apply set_writes in H. injection H as -> -> ->. right. repeat split. }
  step H u6 R6. { destruct H as [H | []]. discriminate H. }
  cbv zeta in H.
  step H analyticsRef R7. { rewrite doc_ref_silent in H. contradiction. }
  apply doc_ref_returns in R7. subst analyticsRef.
  step H u8 R8. { apply set_writes in H. injection H as -> -> ->. right. right. repeat split. }
  destruct H as [H | []]. discriminate H.
Qed.

(** ** Identifiers *)

Lemma length_append :
  forall s t : string, String.length (s ++ t) = (String.length s + String.length t)%nat.
Proof.
  induction s as [| c s IH]; intros t; cbn; [reflexivity |].
  rewrite IH. reflexivity.
Qed.

Lemma occurs_remove_all :
  forall (c : ascii) (s : string), occurs c (remove_all c s) = false.
Proof.
  intros c. induction s as [| d s IH]; cbn; [reflexivity |].
  destruct (Ascii.eqb d c) eqn:E; [exact IH |].
  cbn. rewrite E, IH. reflexivity.
Qed.

Lemma split_not_empty :
  forall (c : ascii) (s : string), split c s <> [].
Proof.
  intros c s. destruct s as [| d s]; cbn; [discriminate |].
  destruct (Ascii.eqb d c); [discriminate |].
  destruct (split c s); discriminate.
Qed.

(** Removing a separator is splitting on it and gluing the pieces. *)
Lemma remove_all_split :
  forall (c : ascii) (s : string),
    remove_all c s = String.concat "" (split c s).
Proof.
  intros c. induction s as [| d s IH]; cbn [remove_all split]; [reflexivity |].
  destruct (Ascii.eqb d c) eqn:E.
  - rewrite IH. pose proof (split_not_empty c s) as Hne.
    destruct (split c s) as [| piece pieces]; [contradiction |]. reflexivity.
  - rewrite IH. pose proof (split_not_empty c s) as Hne.
    destruct (split c s) as [| piece pieces]; [contradiction |].
    destruct pieces; reflexivity.
Qed.

Lemma uuid_token_length :
  forall u : string, is_uuid u = true -> String.length (remove_all hyphen u) = 32%nat.
Proof.
  intros u H. rewrite remove_all_split. unfold is_uuid in H.
  destruct (split hyphen u) as [| a [| b [| c [| d [| e [| f rest]]]]]]; try discriminate H.
  repeat (apply andb_prop in H; destruct H as [H ?]).
  repeat match goal with E : Nat.eqb _ _ = true |- _ => apply Nat.eqb_eq in E end.
  cbn [String.concat]. rewrite !length_append. cbn [String.length]. lia.
Qed.

Lemma differ_by_hyphen :
  forall s t : string, occurs hyphen s = false -> occurs hyphen t = true -> s <> t.
Proof.
  intros s t Hs Ht E. subst t. rewrite Hs in Ht. discriminate Ht.
Qed.

Lemma differ_by_length :
  forall s t : string, String.length s <> String.length t -> s <> t.
Proof.
  intros s t H E. apply H. rewrite E. reflexivity.
Qed.

(** The identifier fields of the documents the builder returns. *)
Lemma buildSessionDocuments_identifiers :
  forall (now : Z) (options : SeedOptions) (sessionId sessionToken : string)
         (docs : SessionDocuments),
    buildSessionDocuments now options sessionId sessionToken = (Ok docs, []) ->
    lookup "sessionId" (sessionDoc docs) = Some (Data (JStr sessionId)) /\
    lookup "sessionToken" (sessionDoc docs) = Some (Data (JStr sessionToken)) /\
    lookup "sessionId" (publicDoc docs) = Some (Data (JStr sessionId)) /\
    lookup "sessionToken" (publicDoc docs) = Some (Data (JStr sessionToken)) /\
    lookup "sessionPath" (publicDoc docs)
      = Some (Data (JStr ("teachers/" ++ teacherId options ++ "/sessions/" ++ sessionId))).
Proof.
  intros now options sessionId sessionToken docs.
  unfold buildSessionDocuments.
  destruct (isNaN _ || isNaN _); intros H; [discriminate H |].
  injection H as <-. repeat split.
Qed.

(** The public-session write of a run, taken apart. *)
Lemma public_write :
  forall (w : World) (options : SeedOptions) (path key : string) (d : doc),
    In (DocSet "publicSessions" key d) (trace (seed w options path)) ->
    skipSession options = false /\
    key = session_token_of w /\
    exists docs,
      buildSessionDocuments (now_session w) options
        (session_id_of w options) (session_token_of w) = (Ok docs, []) /\
      d = publicDoc docs.
Proof.
  intros w options path key d H.
  apply seed_writes in H.
  destruct H as [[E _] | [[Hskip [docs [Hdocs [[E _] | [_ [-> ->]]]]]] | [E _]]];
    try discriminate E.
  split; [exact Hskip |]. split; [reflexivity |].
  exists docs. split; [exact Hdocs | reflexivity].
Qed.


(** ** seed *)

(** C2 (amended). A run with skipSession set that reaches its first write
    issues the teacher write and no session or public-session write; the
    analytics write follows exactly when the store acknowledges the teacher
    write, since a rejected write ends the run. *)
Theorem seed_skip_session_writes :
  forall (w : World) (options : SeedOptions) (path : string),
    skipSession options = true ->
    reaches_writes w options path ->
    writes (trace (seed w options path))
    = ("teachers", teacherId options)
      :: match set_rejects w "teachers" (teacherId options) with
         | None => [("teacherAnalytics", teacherId options)]
         | Some _ => []
         end.
Proof.
  intros w options path Hskip [text [Hread [Hinit Hteacher]]].
  unfold seed, connect, doc_ref, set.
  rewrite Hread, Hinit, Hteacher, Hskip.
  cbn [bind emit ret throw trace snd fst negb app writes].
  destruct (set_rejects w "teachers" (teacherId options)); cbn; [reflexivity |].
  destruct (set_rejects w "teacherAnalytics" (teacherId options)); reflexivity.
Qed.

(** C10. The key of every public-session write is the generated identifier
    with its hyphens removed: it is the document's sessionToken, it contains
    no hyphen, and it is 32 characters long when the identifier is a UUID. *)
Theorem public_session_key :
  forall (w : World) (options : SeedOptions) (path key : string) (d : doc),
    In (DocSet "publicSessions" key d) (trace (seed w options path)) ->
    key = remove_all hyphen (generateSecureId w) /\
    lookup "sessionToken" d = Some (Data (JStr key)) /\
    occurs hyphen key = false /\
    (forall u, randomUUID w = Some u -> is_uuid u = true -> String.length key = 32%nat).
Proof.
  intros w options path key d H.
  apply public_write in H. destruct H as [_ [-> [docs [Hdocs ->]]]].
  apply buildSessionDocuments_identifiers in Hdocs.
  destruct Hdocs as [_ [_ [_ [Htoken _]]]].
  unfold session_token_of in *.
  split; [reflexivity |]. split; [exact Htoken |].
  split; [apply occurs_remove_all |].
  intros u Hu Huuid. unfold generateSecureId. rewrite Hu.
  apply uuid_token_length. exact Huuid.
Qed.

(** C3 (amended). The public-session document carries the session id and
    the token, and the token differs from the session id whenever the
    session id contains a hyphen or, a UUID being generated, is not exactly
    32 characters long.  The script never compares the two. *)
Theorem public_session_token_and_id :
  forall (w : World) (options : SeedOptions) (path key : string) (d : doc),
    In (DocSet "publicSessions" key d) (trace (seed w options path)) ->
    let id := nullish (sessionId options) (auto_id w) in
    lookup "sessionToken" d = Some (Data (JStr key)) /\
    lookup "sessionId" d = Some (Data (JStr id)) /\
    lookup "sessionPath" d
      = Some (Data (JStr ("teachers/" ++ teacherId options ++ "/sessions/" ++ id))) /\
    (occurs hyphen id = true -> key <> id) /\
    (forall u, randomUUID w = Some u -> is_uuid u = true ->
       String.length id <> 32%nat -> key <> id).
Proof.
  intros w options path key d H id.
  apply public_write in H. destruct H as [_ [-> [docs [Hdocs ->]]]].
  apply buildSessionDocuments_identifiers in Hdocs.
  destruct Hdocs as [_ [_ [Hid [Htoken Hpath]]]].
  split; [exact Htoken |]. split; [exact Hid |]. split; [exact Hpath |].
  unfold session_token_of. split.
  - intros Hhyphen. apply differ_by_hyphen; [apply occurs_remove_all | exact Hhyphen].
  - intros u Hu Huuid Hlength. apply differ_by_length.
    unfold generateSecureId. rewrite Hu, (uuid_token_length u Huuid).
    intros E. apply Hlength. symmetry. exact E.
Qed.


(** ** parseArgs and main *)

(** [parseArgs] never throws and prints nothing but warnings. *)
Lemma parseArgs_from_returns :
  forall (args : list string) (parsed : ParsedArgs),
    exists result,
      returned (parseArgs_from args parsed) = Ok result /\
      forallb is_warning (trace (parseArgs_from args parsed)) = true.
Proof.
  intros args.
  assert (Hlen : forall n args, (List.length args <= n)%nat -> forall parsed,
            exists result,
              returned (parseArgs_from args parsed) = Ok result /\
              forallb is_warning (trace (parseArgs_from args parsed)) = true).
  { clear args. induction n as [| n IH]; intros args Hn parsed.
    - destruct args; [| cbn in Hn; lia]. eexists. split; reflexivity.
    - destruct args as [| current rest]; [eexists; split; reflexivity |].
      cbn in Hn. cbn [parseArgs_from].
      assert (Hrest : forall p, exists result,
                returned (parseArgs_from rest p) = Ok result /\
                forallb is_warning (trace (parseArgs_from rest p)) = true)
        by (intros p; apply IH; lia).
      assert (Hskip : forall p, exists result,
                returned (match rest with
                          | [] => ret p
                          | _ :: rest' => parseArgs_from rest' p
                          end) = Ok result /\
                forallb is_warning (trace (match rest with
                                           | [] => ret p
                                           | _ :: rest' => parseArgs_from rest' p
                                           end)) = true).
      { intros p. destruct rest as [| next rest'].
        - eexists. split; reflexivity.
        - apply IH. cbn in Hn. lia. }
      destruct (negb (startsWith "--" current)); [apply Hrest |].
      repeat match goal with
             | |- context [if ?c then _ else _] => destruct c; [first [apply Hskip | apply Hrest] |]
             end.
      destruct (Hrest parsed) as [result [Hret Htrace]].
      exists result. rewrite returned_bind, trace_bind. cbn.
      split; [exact Hret | exact Htrace]. }
  intros parsed. apply (Hlen (List.length args)). lia.
Qed.

(** C5. When the parsed arguments hold no teacher id and no help flag, the
    run prints the usage text, reports the missing flag on the error stream
    and ends with exit status 1; apart from the parser's warnings that is
    all it does: no file is read, no app initialised, no document written. *)
Theorem main_missing_teacher :
  forall (w : World) (parsed : ParsedArgs),
    returned (parseArgs (argv w)) = Ok parsed ->
    spread false (parsed_help parsed) = false ->
    truthy (get (parsed_teacherId parsed)) = false ->
    exitCode (main w) = 1 /\
    events (main w)
    = (trace (parseArgs (argv w))
       ++ [ Log usage;
            Error (newline ++ "Failed to seed Firestore:");
            Error "Missing required flag: --teacher <firebase-uid>" ])%list /\
    forallb is_warning (trace (parseArgs (argv w))) = true /\
    forallb is_console (events (main w)) = true.
Proof.
  intros w parsed Hparsed Hhelp Hteacher.
  destruct (parseArgs_from_returns (argv w) empty_parsed) as [result [Hret Hwarn]].
  fold (parseArgs (argv w)) in Hret, Hwarn.
  assert (Hrun : main w
                 = {| exitCode := 1;
                      events := (trace (parseArgs (argv w))
                                 ++ [ Log usage;
                                      Error (newline ++ "Failed to seed Firestore:");
                                      Error missing_teacher ])%list |}).
  { unfold main. destruct (parseArgs (argv w)) as [[p | message | code] t];
      cbn in Hparsed; try discriminate Hparsed.
    injection Hparsed as ->.
    cbn [bind trace snd]. unfold coerceOptions. rewrite Hhelp.
    destruct (get (parsed_teacherId parsed)) as [id |] eqn:Hid.
    - cbn in Hteacher. apply negb_false_iff in Hteacher. rewrite Hteacher.
      cbn. rewrite <- app_assoc. reflexivity.
    - cbn. rewrite <- app_assoc. reflexivity. }
  rewrite Hrun. cbn [exitCode events].
  split; [reflexivity |]. split; [reflexivity |]. split; [exact Hwarn |].
  rewrite forallb_app. cbn. rewrite andb_true_r.
  rewrite forallb_forall in Hwarn |- *.
  intros e He. specialize (Hwarn e He). destruct e; try discriminate Hwarn. reflexivity.
Qed.

End OrchestratorProperties.

(** * Further properties *)

Section ParserProperties.

Context `{RT : JsRuntime}.

(** ** parseArgs *)

Lemma startsWith_slice :
  forall s : string, startsWith "--" s = true -> s = "--" ++ slice_from 2 s.
Proof.
  intros s H. unfold startsWith in H.
  destruct s as [| a s]; [discriminate H |]. cbn [String.prefix] in H.
  destruct (Ascii.ascii_dec "-" a) as [<- |]; [| discriminate H].
  destruct s as [| b s]; cbn [String.prefix] in H; [discriminate H |].
  destruct (Ascii.ascii_dec "-" b) as [<- |]; [| discriminate H].
  reflexivity.
Qed.

Lemma hd_error_In :
  forall (A : Type) (l : list A) (a : A), hd_error l = Some a -> In a l.
Proof.
  intros A [| b l] a H; cbn in H; [discriminate H |].
  injection H as <-. left. reflexivity.
Qed.

Lemma parseArgs_from_provenance :
  forall (argv : list string) (n : nat) (args : list string) (parsed : ParsedArgs),
    (List.length args <= n)%nat ->
    incl args argv ->
    from_arguments argv parsed ->
    (forall result, returned (parseArgs_from args parsed) = Ok result ->
                    from_arguments argv result) /\
    Forall (unknown_flag_warning argv) (trace (parseArgs_from args parsed)).
Proof.
  intros argv. induction n as [| n IH]; intros args parsed Hn Hincl Hinv.
  - destruct args; [| cbn in Hn; lia]. cbn. split; [| constructor].
    intros result H. injection H as <-. exact Hinv.
  - destruct args as [| current rest].
    { cbn. split; [| constructor]. intros result H. injection H as <-. exact Hinv. }
    cbn in Hn. cbn [parseArgs_from].
    assert (Hcurrent : In current argv) by (apply Hincl; left; reflexivity).
    assert (Hrest : incl rest argv) by (intros a Ha; apply Hincl; right; exact Ha).
    assert (Hnext : forall v, hd_error rest = Some v -> In v argv)
      by (intros v Hv; apply Hrest; apply hd_error_In; exact Hv).
    assert (Hskip : forall p, from_arguments argv p ->
              (forall result,
                 returned (match rest with
                           | [] => ret p
                           | _ :: rest' => parseArgs_from rest' p
                           end) = Ok result -> from_arguments argv result) /\
              Forall (unknown_flag_warning argv)
                (trace (match rest with
                        | [] => ret p
                        | _ :: rest' => parseArgs_from rest' p
                        end))).
    { intros p Hp. destruct rest as [| next rest'].
      - cbn. split; [| constructor]. intros result H. injection H as <-. exact Hp.
      - apply IH; [cbn in Hn; lia | | exact Hp].
        intros a Ha. apply Hrest. right. exact Ha. }
    destruct (startsWith "--" current) eqn:Hflag; cbn [negb];
      [| apply IH; [lia | exact Hrest | exact Hinv]].
    apply startsWith_slice in Hflag.
    destruct Hinv as [Hvalues [Hhelp Hskipped]].
    assert (Hname : forall key, slice_from 2 current = key -> In ("--" ++ key) argv)
      by (intros key <-; rewrite <- Hflag; exact Hcurrent).
    repeat match goal with
           | |- context [if String.eqb ?k ?flag then _ else _] =>
               let E := fresh "E" in
               destruct (String.eqb k flag) eqn:E;
               [ apply String.eqb_eq in E;
                 first
                   [ apply Hskip
                   | apply IH; [lia | exact Hrest |] ];
                 (split; [| split]); cbn;
                 [ intros v Hv;
                   repeat (destruct Hv as [Hv | Hv];
                           [first [ injection Hv as Hv; apply Hnext; exact Hv
                                  | apply Hvalues; cbn; tauto ] |]);
                   contradiction
                 | first [ exact Hhelp | intros _; left; exact (Hname _ E) ]
                 | first [ exact Hskipped | intros _; exact (Hname _ E) ] ]
               | ]
           end.
    destruct (String.eqb (slice_from 2 current) "help") eqn:Ehelp; cbn [orb].
    { apply String.eqb_eq in Ehelp.
      apply IH; [lia | exact Hrest |].
      split; [exact Hvalues |]. split; cbn; [| exact Hskipped].
      intros _. left. exact (Hname _ Ehelp). }
    destruct (String.eqb (slice_from 2 current) "h") eqn:Eh.
    { apply String.eqb_eq in Eh.
      apply IH; [lia | exact Hrest |].
      split; [exact Hvalues |]. split; cbn; [| exact Hskipped].
      intros _. right. exact (Hname _ Eh). }
    destruct (IH rest parsed) as [Hresult Htrace];
      [lia | exact Hrest | split; [exact Hvalues | split; assumption] |].
    rewrite returned_bind, trace_bind. cbn.
    split; [exact Hresult |].
    constructor; [| exact Htrace].
    exists (slice_from 2 current).
    split; [reflexivity |]. split; [exact (Hname _ eq_refl) |].
    unfold known_flags. cbn [In].
    intros Hknown.
    repeat (destruct Hknown as [Hknown | Hknown];
            [symmetry in Hknown; apply String.eqb_eq in Hknown; congruence |]).
    contradiction.
Qed.

(** X1. Words that do not start with two hyphens are skipped in silence:
    arguments without any [--] word (a lone [-h] among them) leave [parsed]
    empty and print no warning. *)
Theorem parseArgs_positional :
  forall argv : list string,
    Forall (fun word => startsWith "--" word = false) argv ->
    parseArgs argv = (Ok empty_parsed, []).
Proof.
  unfold parseArgs. intros argv H.
  induction H as [| word argv Hword _ IH]; [reflexivity |].
  cbn [parseArgs_from]. rewrite Hword. exact IH.
Qed.

(** X2. [parseArgs] stores nothing it was not given: every string in
    [parsed] is a word of the arguments, the help flag is set only when
    [--help] or [--h] is among them, the skip flag only when [--skip-session]
    is, and each warning names a [--] word of the arguments that is none of
    the known flags. *)
Theorem parseArgs_provenance :
  forall (argv : list string) (parsed : ParsedArgs),
    returned (parseArgs argv) = Ok parsed ->
    (forall v, In (Some (Some v)) (value_fields parsed) -> In v argv) /\
    (parsed_help parsed <> None -> In "--help" argv \/ In "--h" argv) /\
    (parsed_skipSession parsed <> None -> In "--skip-session" argv) /\
    Forall (unknown_flag_warning argv) (trace (parseArgs argv)).
Proof.
  intros argv parsed H.
  destruct (parseArgs_from_provenance argv (List.length argv) argv empty_parsed)
    as [Hresult Htrace].
  - lia.
  - apply incl_refl.
  - split; [| split]; cbn.
    + intros v Hv. repeat (destruct Hv as [Hv | Hv]; [discriminate Hv |]). contradiction.
    + intros Hnone. contradiction Hnone. reflexivity.
    + intros Hnone. contradiction Hnone. reflexivity.
  - destruct (Hresult parsed H) as [Hvalues [Hhelp Hskip]].
    split; [exact Hvalues |]. split; [exact Hhelp |]. split; [exact Hskip | exact Htrace].
Qed.

End ParserProperties.

Section SeedProperties.

Context `{RT : JsRuntime}.

(** ** seed: order and completeness of the writes *)

Local Ltac prefix_of_plan :=
  first [ exists 0%nat; reflexivity | exists 1%nat; reflexivity
        | exists 2%nat; reflexivity | exists 3%nat; reflexivity
        | exists 4%nat; reflexivity ].

(** X3. [seed] issues its writes in one fixed order (teacher, session,
    public session, analytics; without the middle two when the session is
    skipped) and stops at the first step that fails.  The writes of every
    run are an initial segment of the plan, and every write but the last one
    issued was acknowledged, so nothing is written after a rejected write.
    A run writes at all only when it reaches its first write, and then its
    writes are exactly the feasible part of the plan up to and including the
    first write the store rejects; the teacher write is always among
    them. *)
Theorem seed_writes_in_order :
  forall (w : World) (options : SeedOptions) (path : string),
    (exists n : nat,
       writes (trace (seed w options path)) = firstn n (planned_writes w options)) /\
    Forall (acknowledged w) (removelast (writes (trace (seed w options path)))) /\
    (writes (trace (seed w options path)) <> [] -> reaches_writes w options path) /\
    (reaches_writes w options path ->
       writes (trace (seed w options path))
         = through_first_rejected w (feasible_writes w options) /\
       exists rest,
         writes (trace (seed w options path)) = ("teachers", teacherId options) :: rest).
Proof.
  intros w options path.
  unfold reaches_writes, feasible_writes, planned_writes, acknowledged, seed, connect,
    doc_ref, set, session_id_of, session_token_of, sessions_of.
  destruct (readFileSync w path) as [text | message] eqn:Hread.
  2: { split; [prefix_of_plan |]. split; [constructor |].
       split; [intros H; contradiction H; reflexivity |].
       intros [text [H _]]. discriminate H. }
  destruct (initializeApp w text) eqn:Hinit.
  { split; [prefix_of_plan |]. split; [constructor |].
    split; [intros H; contradiction H; reflexivity |].
    intros [text' [H [H' _]]]. injection H as <-. rewrite Hinit in H'. discriminate H'. }
  destruct (doc_refuses w (teacherId options)) eqn:Hteacher.
  { split; [prefix_of_plan |]. split; [constructor |].
    split; [intros H; contradiction H; reflexivity |].
    intros [text' [_ [_ H]]]. discriminate H. }
  assert (Hreach : exists text0,
            Returns text = Returns text0 /\ initializeApp w text0 = None
            /\ @None string = None).
  { exists text. split; [reflexivity |]. split; [exact Hinit | reflexivity]. }
  cbn [bind ret emit throw fst snd app].
  destruct (set_rejects w "teachers" (teacherId options)) eqn:Hset1.
  { split; [prefix_of_plan |]. split; [constructor |].
    split; [intros _; exact Hreach |]. intros _.
    split; [| eexists; reflexivity].
    destruct (skipSession options); cbn [through_first_rejected app fst snd];
      [rewrite Hset1; reflexivity |].
    destruct (doc_refuses w (nullish (sessionId options) (auto_id w)));
      [cbn [through_first_rejected fst snd]; rewrite Hset1; reflexivity |].
    destruct (returned (buildSessionDocuments _ _ _ _));
      [| cbn [through_first_rejected fst snd]; rewrite Hset1; reflexivity ..].
    destruct (doc_refuses w (remove_all hyphen (generateSecureId w)));
      cbn [through_first_rejected app fst snd]; rewrite Hset1; reflexivity. }
  destruct (skipSession options); cbn [negb].
  - cbn [bind ret emit throw fst snd app].
    destruct (set_rejects w "teacherAnalytics" (teacherId options)) eqn:Hset4;
      (split; [prefix_of_plan |]);
      (split; [repeat constructor; assumption |]);
      (split; [intros _; exact Hreach |]); intros _;
      (split; [| eexists; reflexivity]);
      cbn [through_first_rejected app fst snd]; rewrite Hset1, Hset4; reflexivity.
  - cbv zeta.
    destruct (doc_refuses w (nullish (sessionId options) (auto_id w))) eqn:Hsession.
    { split; [prefix_of_plan |]. split; [constructor |].
      split; [intros _; exact Hreach |]. intros _.
      split; [| eexists; reflexivity].
      cbn [through_first_rejected fst snd]. rewrite Hset1. reflexivity. }
    destruct (buildSessionDocuments_total (now_session w) options
                (nullish (sessionId options) (auto_id w))
                (remove_all hyphen (generateSecureId w))) as [[docs E] | E];
      cbn [bind ret emit throw fst snd app]; rewrite E; cbn [returned fst].
    2: { split; [prefix_of_plan |]. split; [constructor |].
         split; [intros _; exact Hreach |]. intros _.
         split; [| eexists; reflexivity].
         cbn [through_first_rejected fst snd]. rewrite Hset1. reflexivity. }
    cbn [bind ret emit throw fst snd app].
    destruct (set_rejects w ("teachers/" ++ teacherId options ++ "/sessions")
                (nullish (sessionId options) (auto_id w))) eqn:Hset2.
    { split; [prefix_of_plan |]. split; [repeat constructor; assumption |].
      split; [intros _; exact Hreach |]. intros _.
      split; [| eexists; reflexivity].
      destruct (doc_refuses w (remove_all hyphen (generateSecureId w)));
        cbn [through_first_rejected app fst snd]; rewrite Hset1, Hset2; reflexivity. }
    destruct (doc_refuses w (remove_all hyphen (generateSecureId w))) eqn:Hpublic.
    { split; [prefix_of_plan |]. split; [repeat constructor; assumption |].
      split; [intros _; exact Hreach |]. intros _.
      split; [| eexists; reflexivity].
      cbn [through_first_rejected app fst snd]. rewrite Hset1, Hset2. reflexivity. }
    cbn [bind ret emit throw fst snd app].
    destruct (set_rejects w "publicSessions" (remove_all hyphen (generateSecureId w)))
      eqn:Hset3.
    { split; [prefix_of_plan |]. split; [repeat constructor; assumption |].
      split; [intros _; exact Hreach |]. intros _.
      split; [| eexists; reflexivity].
      cbn [through_first_rejected app fst snd]. rewrite Hset1, Hset2, Hset3. reflexivity. }
    cbn [bind ret emit throw fst snd app].
    destruct (set_rejects w "teacherAnalytics" (teacherId options)) eqn:Hset4;
      (split; [prefix_of_plan |]);
      (split; [repeat constructor; assumption |]);
      (split; [intros _; exact Hreach |]); intros _;
      (split; [| eexists; reflexivity]);
      cbn [through_first_rejected app fst snd];
      rewrite Hset1, Hset2, Hset3, Hset4; reflexivity.
Qed.

Lemma ends_cons :
  forall (A : Type) (x e : A) (l : list A),
    (exists before, l = (before ++ [e])%list) ->
    exists before, x :: l = (before ++ [e])%list.
Proof.
  intros A x e l [before ->]. exists (x :: before). reflexivity.
Qed.

Local Ltac ends_in_last :=
  repeat match goal with
         | |- exists before, _ :: _ :: _ = _ => apply ends_cons
         end;
  exists []; reflexivity.

Lemma seed_returned_plan :
  forall (w : World) (options : SeedOptions) (path : string),
    returned (seed w options path) = Ok tt ->
    writes (trace (seed w options path)) = planned_writes w options /\
    Forall (acknowledged w) (planned_writes w options) /\
    exists before,
      trace (seed w options path)
      = (before ++ [Log (newline ++ "Firestore seed completed successfully.")])%list.
Proof.
  intros w options path.
  unfold planned_writes, acknowledged, seed, connect, doc_ref, set, session_id_of,
    session_token_of, sessions_of.
  destruct (readFileSync w path) as [text | message]; [| intros H; discriminate H].
  destruct (initializeApp w text); [intros H; discriminate H |].
  destruct (doc_refuses w (teacherId options)); [intros H; discriminate H |].
  cbn [bind ret emit throw fst snd app].
  destruct (set_rejects w "teachers" (teacherId options)) eqn:Hteacher;
    [intros H; discriminate H |].
  destruct (skipSession options); cbn [negb].
  - cbn [bind ret emit throw fst snd app].
    destruct (set_rejects w "teacherAnalytics" (teacherId options)) eqn:Hanalytics;
      [intros H; discriminate H |].
    intros _. split; [reflexivity |]. split.
    + repeat constructor; assumption.
    + cbv beta iota zeta delta [trace snd fst bind ret emit throw app]. ends_in_last.
  - cbv zeta.
    destruct (doc_refuses w (nullish (sessionId options) (auto_id w)));
      [intros H; discriminate H |].
    destruct (buildSessionDocuments_total (now_session w) options
                (nullish (sessionId options) (auto_id w))
                (remove_all hyphen (generateSecureId w))) as [[docs E] | E];
      cbn [bind ret emit throw fst snd app]; rewrite E; [| intros H; discriminate H].
    cbn [bind ret emit throw fst snd app].
    destruct (set_rejects w ("teachers/" ++ teacherId options ++ "/sessions")
                (nullish (sessionId options) (auto_id w))) eqn:Hsession;
      [intros H; discriminate H |].
    destruct (doc_refuses w (remove_all hyphen (generateSecureId w)));
      [intros H; discriminate H |].
    cbn [bind ret emit throw fst snd app].
    destruct (set_rejects w "publicSessions" (remove_all hyphen (generateSecureId w)))
      eqn:Hpublic; [intros H; discriminate H |].
    cbn [bind ret emit throw fst snd app].
    destruct (set_rejects w "teacherAnalytics" (teacherId options)) eqn:Hanalytics;
      [intros H; discriminate H |].
    intros _. split; [reflexivity |]. split.
    + repeat constructor; assumption.
    + cbv beta iota zeta delta [trace snd fst bind ret emit throw app]. ends_in_last.
Qed.

(** X4. A run of [seed] that returns has issued every planned write, each
    was acknowledged by the store, and the success line is the last thing it
    printed.  So nothing is skipped in silence. *)
Theorem seed_returns_complete :
  forall (w : World) (options : SeedOptions) (path : string),
    returned (seed w options path) = Ok tt ->
    writes (trace (seed w options path)) = planned_writes w options /\
    Forall (acknowledged w) (planned_writes w options) /\
    exists before,
      trace (seed w options path)
      = (before ++ [Log (newline ++ "Firestore seed completed successfully.")])%list.
Proof.
  exact seed_returned_plan.
Qed.

Lemma append_assoc :
  forall a b c : string, (a ++ b) ++ c = a ++ b ++ c.
Proof.
  induction a as [| x a IH]; intros b c; cbn; [reflexivity |].
  rewrite IH. reflexivity.
Qed.

Local Ltac open_trace H :=
  cbv beta iota zeta delta [trace snd fst bind ret emit throw app] in H.

Local Ltac no_such_write H :=
  exfalso; open_trace H; cbn [In] in H;
  repeat (destruct H as [H | H]; [discriminate H |]); exact H.

(** X5. The public-session document is published only after the session
    document it points to: in every run that writes it, the write of the
    private session document comes earlier in the trace and was acknowledged,
    that document carries the same token, and the public document's
    sessionPath is the very path it was written to. *)
Theorem public_session_after_session :
  forall (w : World) (options : SeedOptions) (path key : string) (d : doc),
    In (DocSet "publicSessions" key d) (trace (seed w options path)) ->
    acknowledged w (sessions_of options, session_id_of w options) /\
    lookup "sessionPath" d
      = Some (Data (JStr (sessions_of options ++ "/" ++ session_id_of w options))) /\
    exists (before after : list event) (session : doc),
      trace (seed w options path)
        = (before ++ DocSet "publicSessions" key d :: after)%list /\
      In (DocSet (sessions_of options) (session_id_of w options) session) before /\
      lookup "sessionToken" session = Some (Data (JStr key)).
Proof.
  intros w options path key d H.
  pose proof (public_write _ _ _ _ _ H) as [Hskip [-> [docs [Hdocs ->]]]].
  destruct (buildSessionDocuments_identifiers _ _ _ _ _ Hdocs)
    as [_ [Htoken [_ [_ Hpath]]]].
  unfold acknowledged, session_id_of, session_token_of, sessions_of in *.
  cbn [fst snd].
  revert H. unfold seed, connect, doc_ref, set. rewrite Hskip. cbn [negb]. cbv zeta.
  destruct (readFileSync w path) as [text | message]; [| intros H; no_such_write H].
  destruct (initializeApp w text); [intros H; no_such_write H |].
  destruct (doc_refuses w (teacherId options)); [intros H; no_such_write H |].
  cbn [bind ret emit throw fst snd app].
  destruct (set_rejects w "teachers" (teacherId options)); [intros H; no_such_write H |].
  destruct (doc_refuses w (nullish (sessionId options) (auto_id w)));
    [intros H; no_such_write H |].
  cbn [bind ret emit throw fst snd app]. rewrite Hdocs.
  cbn [bind ret emit throw fst snd app].
  destruct (set_rejects w ("teachers/" ++ teacherId options ++ "/sessions")
              (nullish (sessionId options) (auto_id w))) eqn:Hsession;
    [intros H; no_such_write H |].
  destruct (doc_refuses w (remove_all hyphen (generateSecureId w)));
    [intros H; no_such_write H |].
  intros _.
  split; [reflexivity |].
  split; [rewrite Hpath, !append_assoc; reflexivity |].
  cbn [bind ret emit throw fst snd app].
  assert (Hlast : forall t : list event,
            exists (before after : list event) (session : doc),
              ([ ReadFile path; AppInitialized;
                Log (newline ++ "Creating teacher document for " ++ teacherId options ++ "...");
                DocSet "teachers" (teacherId options) (teacher_document options);
                Log ("Seeding session document at teachers/" ++ teacherId options
                       ++ "/sessions/"
                       ++ ref_id (("teachers/" ++ teacherId options ++ "/sessions")%string,
                                  nullish (sessionId options) (auto_id w)) ++ "...");
                DocSet ("teachers/" ++ teacherId options ++ "/sessions")
                  (nullish (sessionId options) (auto_id w)) (sessionDoc docs);
                Log ("Publishing public session token at publicSessions/"
                       ++ remove_all hyphen (generateSecureId w) ++ "...");
                DocSet "publicSessions" (remove_all hyphen (generateSecureId w))
                  (publicDoc docs) ] ++ t)%list
              = (before ++ DocSet "publicSessions" (remove_all hyphen (generateSecureId w))
                             (publicDoc docs) :: after)%list /\
              In (DocSet ("teachers/" ++ teacherId options ++ "/sessions")
                    (nullish (sessionId options) (auto_id w)) session) before /\
              lookup "sessionToken" session
                = Some (Data (JStr (remove_all hyphen (generateSecureId w))))).
  { intros t. eexists [_; _; _; _; _; _; _]. exists t, (sessionDoc docs).
    split; [reflexivity |]. split; [| exact Htoken].
    cbn [In]. do 5 right. left. reflexivity. }
  destruct (set_rejects w "publicSessions" (remove_all hyphen (generateSecureId w))).
  { exact (Hlast _). }
  cbn [bind ret emit throw fst snd app].
  destruct (set_rejects w "teacherAnalytics" (teacherId options)); exact (Hlast _).
Qed.

(** ** buildSessionDocuments: the two documents agree *)

(** X6. The public document is a copy of the session document plus a
    pointer: every field it has, other than sessionPath and teacherId, is a
    field of the session document with the same value. *)
Theorem public_document_mirrors_session :
  forall (now : Z) (options : SeedOptions) (sessionId sessionToken : string)
         (docs : SessionDocuments),
    returned (buildSessionDocuments now options sessionId sessionToken) = Ok docs ->
    forall (key : string) (value : field),
      lookup key (publicDoc docs) = Some value ->
      key <> "sessionPath" ->
      key <> "teacherId" ->
      lookup key (sessionDoc docs) = Some value.
Proof.
  intros now options sessionId sessionToken docs.
  unfold buildSessionDocuments.
  destruct (isNaN _ || isNaN _); cbn [returned fst throw ret]; intros H; [discriminate H |].
  injection H as <-. cbn [publicDoc sessionDoc].
  intros key value H Hpath Hteacher. cbn [lookup] in H.
  repeat match type of H with
         | (if String.eqb ?k key then _ else _) = _ =>
             let E := fresh "E" in
             destruct (String.eqb k key) eqn:E;
             [ apply String.eqb_eq in E; subst key;
               first [ exfalso; apply Hpath; reflexivity
                     | exfalso; apply Hteacher; reflexivity
                     | injection H as <-; reflexivity ]
             | ]
         end.
  discriminate H.
Qed.

(** X15. Without a location in the options the documents are those of
    ['0,0']: both coordinates are [Number('0')] and the location text is made
    of its two renderings. *)
Theorem buildSessionDocuments_default_location :
  forall (now : Z) (options : SeedOptions) (sessionId sessionToken : string),
    location options = None ->
    isNaN (Number "0") = false ->
    exists docs,
      buildSessionDocuments now options sessionId sessionToken = (Ok docs, []) /\
      coordinate "latitude" (sessionDoc docs) = Some (JNum (Number "0")) /\
      coordinate "longitude" (sessionDoc docs) = Some (JNum (Number "0")) /\
      lookup "location" (sessionDoc docs)
        = Some (Data (JStr (toFixed (Number "0") 5 ++ ", " ++ toFixed (Number "0") 5))).
Proof.
  intros now options sessionId sessionToken Hloc Hzero.
  unfold buildSessionDocuments.
  rewrite Hloc. cbn [nullish location DEFAULTS split comma Ascii.eqb Bool.eqb nth_error].
  rewrite Hzero. cbn [orb].
  eexists. split; [reflexivity |]. repeat split.
Qed.

End SeedProperties.

Section MainProperties.

Context `{RT : JsRuntime}.

(** ** main: the shape of a run *)

Lemma seed_shape :
  forall (w : World) (options : SeedOptions) (path : string),
    forallb not_error (trace (seed w options path)) = true /\
    writes_follow_connection false false (trace (seed w options path)) = true /\
    (exists message, returned (seed w options path) = Throw message)
    \/ (forallb not_error (trace (seed w options path)) = true /\
        writes_follow_connection false false (trace (seed w options path)) = true /\
        returned (seed w options path) = Ok tt).
Proof.
  intros w options path.
  assert (Hthrow : forall (m : M unit) (message : string),
            forallb not_error (trace m) = true ->
            writes_follow_connection false false (trace m) = true ->
            returned m = Throw message ->
            forallb not_error (trace m) = true /\
            writes_follow_connection false false (trace m) = true /\
            (exists message, returned m = Throw message)
            \/ (forallb not_error (trace m) = true /\
                writes_follow_connection false false (trace m) = true /\
                returned m = Ok tt)).
  { intros m message H1 H2 H3. left. split; [exact H1 |]. split; [exact H2 |].
    exists message. exact H3. }
  unfold seed, connect, doc_ref, set.
  destruct (readFileSync w path) as [text | message];
    [| eapply Hthrow; reflexivity].
  destruct (initializeApp w text); [eapply Hthrow; reflexivity |].
  destruct (doc_refuses w (teacherId options)); [eapply Hthrow; reflexivity |].
  cbn [bind ret emit throw fst snd app].
  destruct (set_rejects w "teachers" (teacherId options)); [eapply Hthrow; reflexivity |].
  destruct (skipSession options); cbn [negb].
  - cbn [bind ret emit throw fst snd app].
    destruct (set_rejects w "teacherAnalytics" (teacherId options));
      [eapply Hthrow; reflexivity |].
    right. repeat split.
  - cbv zeta.
    destruct (doc_refuses w (nullish (sessionId options) (auto_id w)));
      [eapply Hthrow; reflexivity |].
    destruct (buildSessionDocuments_total (now_session w) options
                (nullish (sessionId options) (auto_id w))
                (remove_all hyphen (generateSecureId w))) as [[docs E] | E];
      cbn [bind ret emit throw fst snd app]; rewrite E;
      [| eapply Hthrow; reflexivity].
    cbn [bind ret emit throw fst snd app].
    destruct (set_rejects w ("teachers/" ++ teacherId options ++ "/sessions")
                (nullish (sessionId options) (auto_id w)));
      [eapply Hthrow; reflexivity |].
    destruct (doc_refuses w (remove_all hyphen (generateSecureId w)));
      [eapply Hthrow; reflexivity |].
    cbn [bind ret emit throw fst snd app].
    destruct (set_rejects w "publicSessions" (remove_all hyphen (generateSecureId w)));
      [eapply Hthrow; reflexivity |].
    cbn [bind ret emit throw fst snd app].
    destruct (set_rejects w "teacherAnalytics" (teacherId options));
      [eapply Hthrow; reflexivity |].
    right. repeat split.
Qed.

Lemma detectServiceAccount_shape :
  forall (w : World) (explicitPath : option string),
    (exists message, detectServiceAccount w explicitPath = (Throw message, []))
    \/ (exists path t,
          detectServiceAccount w explicitPath = (Ok path, t) /\
          forallb is_console t = true /\
          forallb not_error t = true).
Proof.
  intros w explicitPath. unfold detectServiceAccount.
  destruct (truthy explicitPath).
  - destruct (cwd w) as [directory | failure]; [| left; eexists; reflexivity].
    destruct (existsSync w _); cbn [negb].
    + right. eexists. eexists. repeat split.
    + left. eexists. reflexivity.
  - destruct (truthy (FIREBASE_SERVICE_ACCOUNT_PATH w)).
    + destruct (cwd w) as [directory | failure]; [| left; eexists; reflexivity].
      destruct (existsSync w _); cbn [negb].
      * right. eexists. eexists. repeat split.
      * left. eexists. reflexivity.
    + destruct (readdirSync w (repoRoot w)) as [files | failure].
      * destruct (candidates files).
        -- left. eexists. reflexivity.
        -- right. eexists. eexists. repeat split.
      * left. eexists. reflexivity.
Qed.

Lemma coerceOptions_cases :
  forall parsed : ParsedArgs,
    (spread false (parsed_help parsed) = true /\
     coerceOptions parsed = (Exit 0, [Log usage]))
    \/ (spread false (parsed_help parsed) = false /\
        truthy (get (parsed_teacherId parsed)) = false /\
        coerceOptions parsed = (Throw missing_teacher, [Log usage]))
    \/ (spread false (parsed_help parsed) = false /\
        truthy (get (parsed_teacherId parsed)) = true /\
        exists options,
          coerceOptions parsed = (Ok options, []) /\
          get (parsed_teacherId parsed) = Some (teacherId options) /\
          teacherId options <> "").
Proof.
  intros parsed. unfold coerceOptions.
  destruct (spread false (parsed_help parsed)); [left; split; reflexivity |].
  right.
  destruct (get (parsed_teacherId parsed)) as [id |]; cbn [truthy];
    [| left; repeat split].
  destruct (String.eqb id "") eqn:Hid; cbn [negb]; [left; repeat split |].
  right. split; [reflexivity |]. split; [reflexivity |].
  eexists. split; [reflexivity |]. split; [reflexivity |].
  cbn [teacherId]. apply String.eqb_neq. exact Hid.
Qed.

(** The runs of [main], case by case. *)
Lemma main_cases :
  forall w : World,
    exists (parsed : ParsedArgs) (warnings : list event),
      parseArgs (argv w) = (Ok parsed, warnings) /\
      forallb is_warning warnings = true /\
      ((spread false (parsed_help parsed) = true /\
        main w = {| exitCode := 0; events := (warnings ++ [Log usage])%list |})
       \/ (spread false (parsed_help parsed) = false /\
           truthy (get (parsed_teacherId parsed)) = false /\
           main w = {| exitCode := 1;
                       events := (warnings ++ Log usage :: failure_lines missing_teacher)%list |})
       \/ (spread false (parsed_help parsed) = false /\
           exists options,
             coerceOptions parsed = (Ok options, []) /\
             ((exists message,
                 detectServiceAccount w (get (parsed_serviceAccountPath parsed))
                 = (Throw message, []) /\
                 main w = {| exitCode := 1;
                             events := (warnings ++ failure_lines message)%list |})
              \/ (exists path located,
                    detectServiceAccount w (get (parsed_serviceAccountPath parsed))
                    = (Ok path, located) /\
                    forallb is_console located = true /\
                    forallb not_error located = true /\
                    ((returned (seed w options path) = Ok tt /\
                      main w = {| exitCode := 0;
                                  events := (warnings ++ located
                                               ++ trace (seed w options path))%list |})
                     \/ (exists message,
                           returned (seed w options path) = Throw message /\
                           main w = {| exitCode := 1;
                                       events := (warnings ++ located
                                                    ++ trace (seed w options path)
                                                    ++ failure_lines message)%list |})))))).
Proof.
  intros w.
  destruct (parseArgs_from_returns (argv w) empty_parsed) as [parsed [Hret Hwarn]].
  fold (parseArgs (argv w)) in Hret, Hwarn.
  destruct (parseArgs (argv w)) as [outcome warnings] eqn:Eparse.
  cbn in Hret, Hwarn. subst outcome.
  exists parsed, warnings. split; [reflexivity |]. split; [exact Hwarn |].
  unfold main. rewrite Eparse. cbn [bind].
  destruct (coerceOptions_cases parsed)
    as [[Hhelp E] | [[Hhelp [Hteacher E]] | [Hhelp [Hteacher [options [E _]]]]]];
    rewrite E; cbn [bind app].
  { left. split; [exact Hhelp | reflexivity]. }
  { right. left. split; [exact Hhelp |]. split; [exact Hteacher |].
    unfold failure_lines. rewrite <- app_assoc. reflexivity. }
  right. right. split; [exact Hhelp |].
  exists options. split; [reflexivity |].
  destruct (detectServiceAccount_shape w (get (parsed_serviceAccountPath parsed)))
    as [[message D] | [path [located [D [Hconsole Hquiet]]]]]; rewrite D; cbn [bind app].
  { left. exists message. split; [reflexivity |]. rewrite app_nil_r. reflexivity. }
  right. exists path, located. split; [reflexivity |].
  split; [exact Hconsole |]. split; [exact Hquiet |].
  destruct (seed w options path) as [[[] | message | code] t] eqn:S.
  - left. split; [reflexivity |]. cbn [trace snd]. rewrite ?app_nil_l. reflexivity.
  - right. exists message. split; [reflexivity |].
    cbn [trace snd]. rewrite <- !app_assoc. reflexivity.
  - exfalso.
    destruct (seed_shape w options path) as [[_ [_ [message H]]] | [_ [_ H]]];
      rewrite S in H; discriminate H.
Qed.

Lemma warnings_are_console :
  forall t : list event, forallb is_warning t = true -> forallb is_console t = true.
Proof.
  induction t as [| e t IH]; [reflexivity |].
  cbn. intros H. apply andb_prop in H. destruct H as [He Ht].
  rewrite (IH Ht), andb_true_r. destruct e; try discriminate He. reflexivity.
Qed.

Lemma console_is_quiet :
  forall t : list event, forallb is_warning t = true -> forallb not_error t = true.
Proof.
  induction t as [| e t IH]; [reflexivity |].
  cbn. intros H. apply andb_prop in H. destruct H as [He Ht].
  rewrite (IH Ht), andb_true_r. destruct e; try discriminate He. reflexivity.
Qed.

Lemma console_writes_nothing :
  forall t : list event, forallb is_console t = true -> writes t = [].
Proof.
  induction t as [| e t IH]; [reflexivity |].
  cbn. intros H. apply andb_prop in H. destruct H as [He Ht].
  destruct e; try discriminate He; exact (IH Ht).
Qed.

Lemma console_before :
  forall (read initialised : bool) (t u : list event),
    forallb is_console t = true ->
    writes_follow_connection read initialised (t ++ u)
    = writes_follow_connection read initialised u.
Proof.
  intros read initialised t u. induction t as [| e t IH]; [reflexivity |].
  cbn. intros H. apply andb_prop in H. destruct H as [He Ht].
  destruct e; try discriminate He; exact (IH Ht).
Qed.

Lemma console_after :
  forall (t u : list event) (read initialised : bool),
    forallb is_console u = true ->
    writes_follow_connection read initialised (t ++ u)
    = writes_follow_connection read initialised t.
Proof.
  induction t as [| e t IH]; intros u read initialised Hu.
  - cbn [app]. rewrite <- (app_nil_r u), console_before by exact Hu. reflexivity.
  - destruct e; cbn; rewrite ?IH by exact Hu; reflexivity.
Qed.

(** Before a write in a trace that passes the check come a file read and
    the initialisation, unless they came before the trace. *)
Lemma writes_follow_connection_sound :
  forall (before after : list event) (read initialised : bool)
         (collection id : string) (d : doc),
    writes_follow_connection read initialised (before ++ DocSet collection id d :: after)
    = true ->
    (read = true \/ exists path, In (ReadFile path) before) /\
    (initialised = true \/ In AppInitialized before).
Proof.
  induction before as [| e before IH]; intros after read initialised collection id d H.
  - cbn in H. apply andb_prop in H. destruct H as [H _].
    apply andb_prop in H. destruct H as [-> ->]. split; left; reflexivity.
  - destruct e; cbn [app writes_follow_connection] in H.
    + destruct (IH _ _ _ _ _ _ H) as [[Hr | [p Hp]] [Hi | Hi]];
        (split; [first [left; exact Hr | right; exists p; right; exact Hp]
                | first [left; exact Hi | right; right; exact Hi]]).
    + destruct (IH _ _ _ _ _ _ H) as [[Hr | [p Hp]] [Hi | Hi]];
        (split; [first [left; exact Hr | right; exists p; right; exact Hp]
                | first [left; exact Hi | right; right; exact Hi]]).
    + destruct (IH _ _ _ _ _ _ H) as [[Hr | [p Hp]] [Hi | Hi]];
        (split; [first [left; exact Hr | right; exists p; right; exact Hp]
                | first [left; exact Hi | right; right; exact Hi]]).
    + destruct (IH _ _ _ _ _ _ H) as [[Hr | [p Hp]] [Hi | Hi]];
        (split; [first [right; exists p; right; exact Hp
                       | right; exists path; left; reflexivity]
                | first [left; exact Hi | right; right; exact Hi]]).
    + destruct (IH _ _ _ _ _ _ H) as [[Hr | [p Hp]] [Hi | Hi]];
        (split; [first [left; exact Hr | right; exists p; right; exact Hp]
                | first [right; right; exact Hi | right; left; reflexivity]]).
    + apply andb_prop in H. destruct H as [_ H].
      destruct (IH _ _ _ _ _ _ H) as [[Hr | [p Hp]] [Hi | Hi]];
        (split; [first [left; exact Hr | right; exists p; right; exact Hp]
                | first [left; exact Hi | right; right; exact Hi]]).
Qed.

(** X7. A run ends with exit status 0 or 1.  With status 1 the last two
    lines it printed are the failure header and one error message, and they
    are the only lines on the error stream; with status 0 nothing was
    printed on the error stream. *)
Theorem main_exit_status :
  forall w : World,
    (exitCode (main w) = 0 /\ forallb not_error (events (main w)) = true)
    \/ (exitCode (main w) = 1 /\
        exists (before : list event) (message : string),
          events (main w) = (before ++ failure_lines message)%list /\
          forallb not_error before = true).
Proof.
  intros w.
  destruct (main_cases w) as [parsed [warnings [_ [Hwarn Hcases]]]].
  pose proof (console_is_quiet _ Hwarn) as Hquiet.
  destruct Hcases
    as [[_ ->] | [[_ [_ ->]] | [_ [options [_ [[message [_ ->]]
         | [path [located [_ [_ [Hlocated [[Hok ->] | [message [Hthrow ->]]]]]]]]]]]]]];
    cbn [exitCode events].
  - left. split; [reflexivity |]. rewrite forallb_app, Hquiet. reflexivity.
  - right. split; [reflexivity |].
    exists (warnings ++ [Log usage])%list, missing_teacher.
    split; [rewrite <- app_assoc; reflexivity |].
    rewrite forallb_app, Hquiet. reflexivity.
  - right. split; [reflexivity |]. exists warnings, message. split; [reflexivity | exact Hquiet].
  - left. split; [reflexivity |].
    rewrite !forallb_app, Hquiet, Hlocated.
    destruct (seed_shape w options path) as [[H _] | [H _]]; rewrite H; reflexivity.
  - right. split; [reflexivity |].
    exists (warnings ++ located ++ trace (seed w options path))%list, message.
    split; [rewrite <- !app_assoc; reflexivity |].
    rewrite !forallb_app, Hquiet, Hlocated.
    destruct (seed_shape w options path) as [[H _] | [H _]]; rewrite H; reflexivity.
Qed.

(** X8. With the help flag among the parsed arguments the run prints the
    usage text after the parser's warnings and exits with status 0, whether
    or not a teacher id was given; it reads no file and writes nothing. *)
Theorem main_help :
  forall (w : World) (parsed : ParsedArgs),
    returned (parseArgs (argv w)) = Ok parsed ->
    spread false (parsed_help parsed) = true ->
    exitCode (main w) = 0 /\
    events (main w) = (trace (parseArgs (argv w)) ++ [Log usage])%list /\
    forallb is_console (events (main w)) = true.
Proof.
  intros w parsed Hparsed Hhelp.
  destruct (main_cases w) as [parsed' [warnings [Eparse [Hwarn Hcases]]]].
  rewrite Eparse in Hparsed |- *. cbn in Hparsed. injection Hparsed as ->.
  destruct Hcases as [[_ ->] | [[H _] | [H _]]];
    [| rewrite Hhelp in H; discriminate H | rewrite Hhelp in H; discriminate H].
  cbn [exitCode events trace snd].
  split; [reflexivity |]. split; [reflexivity |].
  rewrite forallb_app, (warnings_are_console _ Hwarn). reflexivity.
Qed.

(** X9. Exit status 0 without the help flag means the whole plan was carried
    out: options were coerced, a credential path was found, and the writes of
    the run are exactly the planned writes, each acknowledged by the store. *)
Theorem main_success_complete :
  forall (w : World) (parsed : ParsedArgs),
    returned (parseArgs (argv w)) = Ok parsed ->
    spread false (parsed_help parsed) = false ->
    exitCode (main w) = 0 ->
    exists (options : SeedOptions) (path : string),
      returned (coerceOptions parsed) = Ok options /\
      returned (detectServiceAccount w (get (parsed_serviceAccountPath parsed))) = Ok path /\
      writes (events (main w)) = planned_writes w options /\
      Forall (acknowledged w) (planned_writes w options).
Proof.
  intros w parsed Hparsed Hhelp Hexit.
  destruct (main_cases w) as [parsed' [warnings [Eparse [Hwarn Hcases]]]].
  rewrite Eparse in Hparsed. cbn in Hparsed. injection Hparsed as ->.
  destruct Hcases
    as [[H _] | [[_ [_ E]] | [_ [options [Ecoerce [[message [_ E]]
         | [path [located [Edetect [Hconsole [_ [[Hok E] | [message [_ E]]]]]]]]]]]]]];
    try (rewrite Hhelp in H; discriminate H);
    rewrite E in Hexit |- *; cbn [exitCode events] in Hexit |- *;
    try discriminate Hexit.
  exists options, path.
  rewrite Ecoerce, Edetect. split; [reflexivity |]. split; [reflexivity |].
  destruct (seed_returned_plan w options path Hok) as [Hwrites [Hack _]].
  split; [| exact Hack].
  rewrite !writes_app, Hwrites.
  rewrite (console_writes_nothing _ (warnings_are_console _ Hwarn)).
  rewrite (console_writes_nothing _ Hconsole). reflexivity.
Qed.

(** X10. A run never writes before it is connected: ahead of every write in
    its trace stand the read of a credential file and the initialisation of
    the app. *)
Theorem main_writes_after_connection :
  forall (w : World) (before after : list event) (collection id : string) (d : doc),
    events (main w) = (before ++ DocSet collection id d :: after)%list ->
    (exists path, In (ReadFile path) before) /\ In AppInitialized before.
Proof.
  intros w before after collection id d H.
  assert (Hcheck : writes_follow_connection false false (events (main w)) = true).
  { destruct (main_cases w) as [parsed [warnings [_ [Hwarn Hcases]]]].
    pose proof (warnings_are_console _ Hwarn) as Hconsole.
    destruct Hcases
      as [[_ ->] | [[_ [_ ->]] | [_ [options [_ [[message [_ ->]]
           | [path [located [_ [Hlocated [_ [[_ ->] | [message [_ ->]]]]]]]]]]]]]];
      cbn [events]; rewrite console_before by exact Hconsole; try reflexivity.
    - rewrite console_before by exact Hlocated.
      destruct (seed_shape w options path) as [[_ [Hs _]] | [_ [Hs _]]]; exact Hs.
    - rewrite console_before by exact Hlocated.
      rewrite console_after by reflexivity.
      destruct (seed_shape w options path) as [[_ [Hs _]] | [_ [Hs _]]]; exact Hs. }
  rewrite H in Hcheck.
  destruct (writes_follow_connection_sound _ _ _ _ _ _ _ Hcheck) as [[Hr | Hr] [Hi | Hi]];
    try discriminate Hr; try discriminate Hi.
  split; [exact Hr | exact Hi].
Qed.

Lemma console_reads_nothing :
  forall (t : list event) (path : string),
    forallb is_console t = true -> ~ In (ReadFile path) t.
Proof.
  intros t path H Hin. rewrite forallb_forall in H.
  specialize (H _ Hin). discriminate H.
Qed.

Lemma seed_reads :
  forall (w : World) (options : SeedOptions) (path read : string),
    In (ReadFile read) (trace (seed w options path)) -> read = path.
Proof.
  intros w options path read.
  assert (Hconnect : forall t : list event,
            forallb (fun e => match e with ReadFile _ => false | _ => true end) t = true ->
            In (ReadFile read) (ReadFile path :: t) -> read = path).
  { intros t Ht [H | H]; [injection H as <-; reflexivity |].
    rewrite forallb_forall in Ht. specialize (Ht _ H). discriminate Ht. }
  unfold seed, connect, doc_ref, set.
  destruct (readFileSync w path) as [text | message];
    [| apply (Hconnect []); reflexivity].
  destruct (initializeApp w text); [apply (Hconnect []); reflexivity |].
  destruct (doc_refuses w (teacherId options)); [refine (Hconnect _ _); reflexivity |].
  cbn [bind ret emit throw fst snd app].
  destruct (set_rejects w "teachers" (teacherId options));
    [refine (Hconnect _ _); reflexivity |].
  destruct (skipSession options); cbn [negb].
  - cbn [bind ret emit throw fst snd app].
    destruct (set_rejects w "teacherAnalytics" (teacherId options));
      refine (Hconnect _ _); reflexivity.
  - cbv zeta.
    destruct (doc_refuses w (nullish (sessionId options) (auto_id w)));
      [refine (Hconnect _ _); reflexivity |].
    destruct (buildSessionDocuments_total (now_session w) options
                (nullish (sessionId options) (auto_id w))
                (remove_all hyphen (generateSecureId w))) as [[docs E] | E];
      cbn [bind ret emit throw fst snd app]; rewrite E;
      [| refine (Hconnect _ _); reflexivity].
    cbn [bind ret emit throw fst snd app].
    destruct (set_rejects w ("teachers/" ++ teacherId options ++ "/sessions")
                (nullish (sessionId options) (auto_id w)));
      [refine (Hconnect _ _); reflexivity |].
    destruct (doc_refuses w (remove_all hyphen (generateSecureId w)));
      [refine (Hconnect _ _); reflexivity |].
    cbn [bind ret emit throw fst snd app].
    destruct (set_rejects w "publicSessions" (remove_all hyphen (generateSecureId w)));
      [refine (Hconnect _ _); reflexivity |].
    cbn [bind ret emit throw fst snd app].
    destruct (set_rejects w "teacherAnalytics" (teacherId options));
      refine (Hconnect _ _); reflexivity.
Qed.

(** X13. The only file a run reads is the credential file that
    [detectServiceAccount] returned, and it reads it only after the arguments
    gave options with a non-empty teacher id. *)
Theorem main_reads_detected_file :
  forall (w : World) (read : string),
    In (ReadFile read) (events (main w)) ->
    exists (parsed : ParsedArgs) (options : SeedOptions),
      returned (parseArgs (argv w)) = Ok parsed /\
      returned (coerceOptions parsed) = Ok options /\
      teacherId options <> "" /\
      returned (detectServiceAccount w (get (parsed_serviceAccountPath parsed))) = Ok read.
Proof.
  intros w read H.
  destruct (main_cases w) as [parsed [warnings [Eparse [Hwarn Hcases]]]].
  pose proof (console_reads_nothing _ read (warnings_are_console _ Hwarn)) as Hnot.
  destruct Hcases
    as [[_ E] | [[_ [_ E]] | [_ [options [Ecoerce [[message [_ E]]
         | [path [located [Edetect [Hconsole [_ [[_ E] | [message [_ E]]]]]]]]]]]]]];
    rewrite E in H; cbn [events] in H.
  - apply in_app_or in H. destruct H as [H | [H | []]]; [contradiction | discriminate H].
  - apply in_app_or in H.
    destruct H as [H | [H | [H | [H | []]]]]; [contradiction | discriminate H ..].
  - apply in_app_or in H.
    destruct H as [H | [H | [H | []]]]; [contradiction | discriminate H ..].
  - exists parsed, options.
    destruct (coerceOptions_cases parsed)
      as [[_ E'] | [[_ [_ E']] | [_ [_ [options' [E' [_ Hid]]]]]]];
      rewrite E' in Ecoerce; try discriminate Ecoerce.
    injection Ecoerce as ->.
    rewrite Eparse, E', Edetect. repeat split; try exact Hid.
    apply in_app_or in H. destruct H as [H | H]; [contradiction |].
    apply in_app_or in H. destruct H as [H | H];
      [contradiction (console_reads_nothing _ _ Hconsole H) |].
    apply seed_reads in H. subst read. reflexivity.
  - exists parsed, options.
    destruct (coerceOptions_cases parsed)
      as [[_ E'] | [[_ [_ E']] | [_ [_ [options' [E' [_ Hid]]]]]]];
      rewrite E' in Ecoerce; try discriminate Ecoerce.
    injection Ecoerce as ->.
    rewrite Eparse, E', Edetect. repeat split; try exact Hid.
    apply in_app_or in H. destruct H as [H | H]; [contradiction |].
    apply in_app_or in H. destruct H as [H | H];
      [contradiction (console_reads_nothing _ _ Hconsole H) |].
    apply in_app_or in H. destruct H as [H | [H | [H | []]]]; try discriminate H.
    apply seed_reads in H. subst read. reflexivity.
Qed.

(** X14. [coerceOptions] ends in one of three ways: with the help flag it
    prints the usage text and exits with status 0, teacher id or not; without
    it and without a non-empty teacher id it prints the usage text and throws;
    otherwise it prints nothing and returns options whose teacher id is the
    parsed one and is not empty. *)
Theorem coerceOptions_outcomes :
  forall parsed : ParsedArgs,
    (spread false (parsed_help parsed) = true /\
     coerceOptions parsed = (Exit 0, [Log usage]))
    \/ (spread false (parsed_help parsed) = false /\
        truthy (get (parsed_teacherId parsed)) = false /\
        coerceOptions parsed = (Throw missing_teacher, [Log usage]))
    \/ (spread false (parsed_help parsed) = false /\
        truthy (get (parsed_teacherId parsed)) = true /\
        exists options,
          coerceOptions parsed = (Ok options, []) /\
          get (parsed_teacherId parsed) = Some (teacherId options) /\
          teacherId options <> "").
Proof.
  exact coerceOptions_cases.
Qed.

End MainProperties.

Section LocatorProperties.

Context `{RT : JsRuntime}.

(** ** detectServiceAccount: the scan of the repository root *)

Lemma prefix_spec :
  forall p s : string, String.prefix p s = true <-> exists q, s = p ++ q.
Proof.
  induction p as [| a p IH]; intros s.
  - split; [intros _; exists s; reflexivity | intros _; destruct s; reflexivity].
  - destruct s as [| b s]; cbn [String.prefix].
    + split; [intros H; discriminate H | intros [q H]; discriminate H].
    + destruct (Ascii.ascii_dec a b) as [<- | Hne].
      * rewrite IH. split; intros [q H]; exists q.
        -- cbn. rewrite <- H. reflexivity.
        -- cbn in H. injection H as H. exact H.
      * split; [intros H; discriminate H |].
        intros [q H]. cbn in H. injection H as H _. contradiction (Hne (eq_sym H)).
Qed.

Lemma includes_spec :
  forall sub s : string, includes sub s = true <-> exists p q, s = p ++ sub ++ q.
Proof.
  intros sub. induction s as [| c s IH]; cbn [includes].
  - rewrite orb_false_r, prefix_spec. split.
    + intros [q H]. exists "", q. exact H.
    + intros [p [q H]]. destruct p; [exists q; exact H | discriminate H].
  - rewrite orb_true_iff, prefix_spec, IH. split.
    + intros [[q H] | [p [q H]]].
      * exists "", q. exact H.
      * exists (String c p), q. cbn. rewrite H. reflexivity.
    + intros [p [q H]]. destruct p as [| c' p].
      * left. exists q. exact H.
      * right. cbn in H. injection H as _ H. exists p, q. exact H.
Qed.

Lemma endsWith_spec :
  forall suf s : string, endsWith suf s = true <-> exists p, s = p ++ suf.
Proof.
  intros suf. induction s as [| c s IH]; cbn [endsWith].
  - rewrite orb_false_r, String.eqb_eq. split.
    + intros <-. exists "". reflexivity.
    + intros [p H]. destruct p; [exact H | discriminate H].
  - rewrite orb_true_iff, String.eqb_eq, IH. split.
    + intros [<- | [p H]].
      * exists "". reflexivity.
      * exists (String c p). cbn. rewrite H. reflexivity.
    + intros [p H]. destruct p as [| c' p].
      * left. exact H.
      * right. cbn in H. injection H as _ H. exists p. exact H.
Qed.

(** X11. Without an explicit path and without the environment variable, the
    scan returns the first entry of the repository root, in directory order,
    whose name contains [firebase-adminsdk] and ends in [.json]; it logs the
    choice and does not test that the entry exists or can be read. *)
Theorem detectServiceAccount_scan_first :
  forall (w : World) (explicitPath : option string)
         (skipped others : list string) (file : string),
    truthy explicitPath = false ->
    truthy (FIREBASE_SERVICE_ACCOUNT_PATH w) = false ->
    readdirSync w (repoRoot w) = Returns (skipped ++ file :: others)%list ->
    Forall (fun name => ~ ((exists p q, name = p ++ "firebase-adminsdk" ++ q)
                           /\ (exists p, name = p ++ ".json"))) skipped ->
    (exists p q, file = p ++ "firebase-adminsdk" ++ q) ->
    (exists p, file = p ++ ".json") ->
    detectServiceAccount w explicitPath
    = (Ok (resolve [repoRoot w; file]),
       [Log ("Using service account file: " ++ resolve [repoRoot w; file])]).
Proof.
  intros w explicitPath skipped others file Hexplicit Henv Hlist Hskipped Hname Hjson.
  unfold detectServiceAccount, candidates.
  rewrite Hexplicit, Henv, Hlist, filter_app.
  assert (Hnone : filter is_candidate skipped = []).
  { clear Hlist. induction Hskipped as [| name skipped Hname' _ IH]; [reflexivity |].
    cbn [filter]. destruct (is_candidate name) eqn:E; [| exact IH].
    exfalso. apply Hname'. unfold is_candidate in E.
    apply andb_prop in E. destruct E as [E1 E2].
    split; [apply includes_spec; exact E1 | apply endsWith_spec; exact E2]. }
  rewrite Hnone. cbn [app filter].
  assert (Hfile : is_candidate file = true).
  { unfold is_candidate. apply andb_true_intro.
    split; [apply includes_spec; exact Hname | apply endsWith_spec; exact Hjson]. }
  rewrite Hfile. reflexivity.
Qed.

(** ** generateSecureId: the fallback *)





End LocatorProperties.

(** * The properties on concrete runs *)

Module Runs.

Import Demo.

(** Both sides of an equation evaluated, then compared. *)
Local Ltac evaluate :=
  match goal with
  | |- ?l = ?r =>
      let l' := eval vm_compute in l in
      let r' := eval vm_compute in r in
      change (l' = r'); reflexivity
  end.

Local Ltac member := apply first_write_In; evaluate.

(** The options of the runs are those [coerceOptions] makes of their
    arguments. *)
Lemma options_of_arguments :
  returned (parsed <- parseArgs (RT := Reference.runtime) (argv plain) ;;
            coerceOptions parsed) = Ok options /\
  returned (parsed <- parseArgs (RT := Reference.runtime) (argv colliding) ;;
            coerceOptions parsed) = Ok (with_session false (Some token)) /\
  returned (parsed <- parseArgs (RT := Reference.runtime) (argv named) ;;
            coerceOptions parsed) = Ok (with_session false (Some "math-101")) /\
  returned (parsed <- parseArgs (RT := Reference.runtime) (argv skipping) ;;
            coerceOptions parsed) = Ok (with_session true None).
Proof.
  repeat split; evaluate.
Qed.

(** ** Builders *)

(** C1 on the locations [12,77], [12,north], [north] and [12]. *)
Lemma buildSessionDocuments_location_witness :
  (exists docs,
     buildSessionDocuments (RT := Reference.runtime) clock options generated_id token
       = (Ok docs, []) /\
     coordinate "latitude" (sessionDoc docs)
       = Some (@JNum Reference.runtime (Reference.Int 12)) /\
     coordinate "longitude" (sessionDoc docs)
       = Some (@JNum Reference.runtime (Reference.Int 77)) /\
     lookup "locationCoordinates" (publicDoc docs)
       = lookup "locationCoordinates" (sessionDoc docs))
  /\ buildSessionDocuments (RT := Reference.runtime) clock (with_location "12,north")
       generated_id token
     = (Throw ("Invalid --location value: 12,north. Expected format is "
                 ++ dquote ++ "lat,lng" ++ dquote), [])
  /\ buildSessionDocuments (RT := Reference.runtime) clock (with_location "north")
       generated_id token
     = (Throw ("Invalid --location value: north. Expected format is "
                 ++ dquote ++ "lat,lng" ++ dquote), [])
  /\ (exists docs,
        buildSessionDocuments (RT := Reference.runtime) clock (with_location "12")
          generated_id token = (Ok docs, []) /\
        coordinate "latitude" (sessionDoc docs)
          = Some (@JNum Reference.runtime (Reference.Int 12)) /\
        coordinate "longitude" (sessionDoc docs)
          = Some (@JNum Reference.runtime (Reference.Int 0)) /\
        lookup "locationCoordinates" (publicDoc docs)
          = lookup "locationCoordinates" (sessionDoc docs)).
Proof.
  split; [| split; [| split]].
  - exact (proj1 (proj1 (buildSessionDocuments_location (RT := Reference.runtime) clock
                           options generated_id token "12,77" eq_refl)
                    "12" "77" "" eq_refl eq_refl eq_refl (or_introl eq_refl))
                 eq_refl eq_refl).
  - exact (proj2 (proj1 (buildSessionDocuments_location (RT := Reference.runtime) clock
                           (with_location "12,north") generated_id token "12,north" eq_refl)
                    "12" "north" "" eq_refl eq_refl eq_refl (or_introl eq_refl))
                 (or_intror eq_refl)).
  - exact (proj1 (proj2 (buildSessionDocuments_location (RT := Reference.runtime) clock
                           (with_location "north") generated_id token "north" eq_refl)
                    eq_refl)
                 eq_refl).
  - exact (proj2 (proj2 (buildSessionDocuments_location (RT := Reference.runtime) clock
                           (with_location "12") generated_id token "12" eq_refl)
                    eq_refl)
                 eq_refl eq_refl).
Defined.

(** C7 on the plain run, whose clock reads 2023-11-14T22:13:20Z. *)
Lemma buildSessionDocuments_schedule_witness :
  lookup "scheduledFor" (sessionDoc (built plain options))
    = Some (Data (@JStr Reference.runtime "2023-11-14T22:28:20.000Z")) /\
  lookup "durationMinutes" (sessionDoc (built plain options))
    = Some (Data (@JNum Reference.runtime (Reference.Int 45))) /\
  lookup "expectedAttendance" (sessionDoc (built plain options))
    = Some (Data (@JNum Reference.runtime (Reference.Int 30))).
Proof.
  exact (buildSessionDocuments_schedule (RT := Reference.runtime) clock options
           generated_id token (built plain options) eq_refl).
Defined.

(** C4 (amended) on the plain run. *)
Lemma buildSessionDocuments_qr_payload_witness :
  exists payload : list (string * json),
    lookup "qrCodeData" (sessionDoc (built plain options))
      = Some (Data (JStr (JSON_stringify (RT := Reference.runtime) payload))) /\
    keys payload = qr_fields.
Proof.
  destruct (buildSessionDocuments_qr_payload (RT := Reference.runtime) clock options
              generated_id token (built plain options) eq_refl)
    as [payload [Hqr [Hkeys _]]].
  exists payload. split; [exact Hqr | exact Hkeys].
Defined.

(** C4 as stated fails: the session document of the plain run has a status
    and an expected attendance, and neither name occurs anywhere in its QR
    text. *)
Lemma qr_payload_counterexample :
  exists (docs : SessionDocuments) (qr : string),
    returned (buildSessionDocuments (RT := Reference.runtime) clock options
                generated_id token) = Ok docs /\
    lookup "status" (sessionDoc docs) = Some (Data (JStr "scheduled")) /\
    lookup "expectedAttendance" (sessionDoc docs)
      = Some (Data (@JNum Reference.runtime (Reference.Int 30))) /\
    lookup "qrCodeData" (sessionDoc docs) = Some (Data (JStr qr)) /\
    includes "status" qr = false /\
    includes "expectedAttendance" qr = false.
Proof.
  eexists. eexists.
  split; [reflexivity |]. split; [reflexivity |]. split; [reflexivity |].
  split; [reflexivity |]. split; evaluate.
Qed.



(** ** detectServiceAccount *)

(** C6 as stated fails in its last clause: with an explicit path that does
    not exist the function throws although the scan of the repository root
    would find a credential file. *)
Lemma detectServiceAccount_counterexample :
  returned (detectServiceAccount (RT := Reference.runtime) misdirected (Some "missing.json"))
    = Throw "Service account file not found at /repo/code/frontend/missing.json" /\
  throws (detectServiceAccount (RT := Reference.runtime) misdirected (Some "missing.json"))
    = true /\
  readdirSync misdirected (repoRoot (RT := Reference.runtime) misdirected)
    = Returns ["README.md"; "demo-firebase-adminsdk-1.json"; "frontend"] /\
  candidates ["README.md"; "demo-firebase-adminsdk-1.json"; "frontend"]
    = ["demo-firebase-adminsdk-1.json"] /\
  candidate_exists (RT := Reference.runtime) misdirected (Some "missing.json") = true /\
  exitCode (main (RT := Reference.runtime) misdirected) = 1 /\
  writes (events (main (RT := Reference.runtime) misdirected)) = [].
Proof.
  repeat split; evaluate.
Qed.

(** ** seed and main *)

(** C2 (amended) on a run with [--skip-session] whose writes are accepted. *)
Lemma seed_skip_session_writes_witness :
  writes (trace (seed (RT := Reference.runtime) skipping (with_session true None) credentials))
  = [("teachers", "abc123"); ("teacherAnalytics", "abc123")].
Proof.
  exact (seed_skip_session_writes (RT := Reference.runtime) skipping
           (with_session true None) credentials eq_refl
           (ex_intro _ "{}" (conj eq_refl (conj eq_refl eq_refl)))).
Defined.

(** C2 as stated fails: with [--skip-session] and the store unreachable the
    run reaches its teacher write, the write is rejected, and the analytics
    write is never issued. *)
Lemma skip_session_counterexample :
  skipSession (with_session true None) = true /\
  reaches_writes unreachable (with_session true None) credentials /\
  writes (trace (seed (RT := Reference.runtime) unreachable (with_session true None) credentials))
    = [("teachers", "abc123")] /\
  writes (events (main (RT := Reference.runtime) unreachable)) = [("teachers", "abc123")] /\
  exitCode (main (RT := Reference.runtime) unreachable) = 1.
Proof.
  split; [reflexivity |].
  split; [exists "{}"; repeat split |].
  repeat split; evaluate.
Qed.

(** C10 on the plain run. *)
Lemma public_session_key_witness :
  token = remove_all hyphen uuid /\
  occurs hyphen token = false /\
  String.length token = 32%nat.
Proof.
  assert (Hin : In (DocSet "publicSessions" token (publicDoc (built plain options)))
                   (trace (seed (RT := Reference.runtime) plain options credentials)))
    by member.
  destruct (public_session_key (RT := Reference.runtime) plain options credentials token
              (publicDoc (built plain options)) Hin)
    as [Hkey [_ [Hhyphen Hlength]]].
  split; [exact Hkey |]. split; [exact Hhyphen |].
  exact (Hlength uuid eq_refl eq_refl).
Defined.

(** C3 (amended) on the run with [--session-id math-101]. *)
Lemma public_session_token_and_id_witness :
  lookup "sessionId" (publicDoc (built named (with_session false (Some "math-101"))))
    = Some (Data (@JStr Reference.runtime "math-101")) /\
  token <> "math-101".
Proof.
  assert (Hin : In (DocSet "publicSessions" token
                      (publicDoc (built named (with_session false (Some "math-101")))))
                   (trace (seed (RT := Reference.runtime) named
                             (with_session false (Some "math-101")) credentials)))
    by member.
  destruct (public_session_token_and_id (RT := Reference.runtime) named
              (with_session false (Some "math-101")) credentials token
              (publicDoc (built named (with_session false (Some "math-101")))) Hin)
    as [_ [Hid [_ [Hhyphen _]]]].
  split; [exact Hid | exact (Hhyphen eq_refl)].
Defined.

(** C3 as stated fails: the caller passes [--session-id] with the 32
    characters the token turns out to be, and the public-session document is
    written under a key equal to the id of the session it points to. *)
Lemma session_token_counterexample :
  exists (id : string) (private public : doc),
    In (DocSet "teachers/abc123/sessions" id private)
       (events (main (RT := Reference.runtime) colliding)) /\
    In (DocSet "publicSessions" id public)
       (events (main (RT := Reference.runtime) colliding)) /\
    lookup "sessionToken" public = Some (Data (JStr id)) /\
    lookup "sessionId" public = Some (Data (JStr id)) /\
    lookup "sessionPath" public
      = Some (Data (JStr ("teachers/abc123/sessions/" ++ id))).
Proof.
  exists token, (sessionDoc (built colliding (with_session false (Some token)))),
    (publicDoc (built colliding (with_session false (Some token)))).
  split; [member |]. split; [member |].
  repeat split; evaluate.
Qed.

(** C5 on [--name Ada --verbose]. *)
Lemma main_missing_teacher_witness :
  exitCode (main (RT := Reference.runtime) anonymous) = 1 /\
  events (main (RT := Reference.runtime) anonymous)
  = [ Warn "Ignoring unknown flag --verbose";
      Log usage;
      Error (newline ++ "Failed to seed Firestore:");
      Error "Missing required flag: --teacher <firebase-uid>" ].
Proof.
  destruct (main_missing_teacher (RT := Reference.runtime) anonymous anonymous_parsed
              eq_refl eq_refl eq_refl) as [Hexit [Hevents _]].
  split; [exact Hexit | exact Hevents].
Defined.



End Runs.

(** * The further properties on concrete runs *)

Module MoreRuns.

Import Demo Cases.

(** Both sides of an equation evaluated, then compared. *)
Local Ltac evaluate :=
  match goal with
  | |- ?l = ?r =>
      let l' := eval vm_compute in l in
      let r' := eval vm_compute in r in
      change (l' = r'); reflexivity
  end.

Local Ltac member := apply first_write_In; evaluate.

(** X1 on [-h notes.txt abc123]. *)
Lemma parseArgs_positional_witness :
  parseArgs (RT := Reference.runtime) positional = (Ok empty_parsed, []).
Proof.
  apply (parseArgs_positional (RT := Reference.runtime) positional).
  repeat constructor.
Defined.

(** X2 on [--name Ada --verbose]. *)
Lemma parseArgs_provenance_witness :
  In "Ada" (argv anonymous) /\
  Forall (unknown_flag_warning (RT := Reference.runtime) (argv anonymous))
    [Warn "Ignoring unknown flag --verbose"].
Proof.
  destruct (parseArgs_provenance (RT := Reference.runtime) (argv anonymous) anonymous_parsed
              eq_refl) as [Hvalues [_ [_ Hwarn]]].
  split; [| exact Hwarn].
  apply Hvalues. right. left. reflexivity.
Defined.

(** X3 on the run whose session write is rejected. *)
Lemma seed_writes_in_order_witness :
  writes (trace (seed (RT := Reference.runtime) stalled options credentials))
  = [("teachers", "abc123"); ("teachers/abc123/sessions", generated_id)].
Proof.
  exact (proj1 (proj2 (proj2 (proj2 (seed_writes_in_order (RT := Reference.runtime)
                                       stalled options credentials)))
                  (ex_intro _ "{}" (conj eq_refl (conj eq_refl eq_refl))))).
Defined.

(** X4 on the plain run. *)
Lemma seed_returns_complete_witness :
  writes (trace (seed (RT := Reference.runtime) plain options credentials))
  = [ ("teachers", "abc123");
      ("teachers/abc123/sessions", generated_id);
      ("publicSessions", token);
      ("teacherAnalytics", "abc123") ].
Proof.
  assert (H : returned (seed (RT := Reference.runtime) plain options credentials) = Ok tt)
    by evaluate.
  exact (proj1 (seed_returns_complete (RT := Reference.runtime) plain options credentials H)).
Defined.

(** X5 on the plain run. *)
Lemma public_session_after_session_witness :
  lookup "sessionPath" (publicDoc (built plain options))
  = Some (Data (@JStr Reference.runtime "teachers/abc123/sessions/Jk3xQ9ZbT2mLpW8sVc4R")).
Proof.
  assert (Hin : In (DocSet "publicSessions" token (publicDoc (built plain options)))
                   (trace (seed (RT := Reference.runtime) plain options credentials)))
    by member.
  exact (proj1 (proj2 (public_session_after_session (RT := Reference.runtime) plain options
                         credentials token (publicDoc (built plain options)) Hin))).
Defined.

(** X6 on the plain run and the field scheduledFor. *)
Lemma public_document_mirrors_session_witness :
  lookup "scheduledFor" (sessionDoc (built plain options))
  = Some (Data (@JStr Reference.runtime "2023-11-14T22:28:20.000Z")).
Proof.
  apply (public_document_mirrors_session (RT := Reference.runtime) clock options
           generated_id token (built plain options) eq_refl "scheduledFor").
  - reflexivity.
  - discriminate.
  - discriminate.
Defined.

(** X8 on [--help]. *)
Lemma main_help_witness :
  exitCode (main (RT := Reference.runtime) helping) = 0 /\
  events (main (RT := Reference.runtime) helping) = [Log usage].
Proof.
  destruct (main_help (RT := Reference.runtime) helping helping_parsed eq_refl eq_refl)
    as [Hexit [Hevents _]].
  split; [exact Hexit | exact Hevents].
Defined.

(** X9 on the plain run. *)
Lemma main_success_complete_witness :
  exists (options : SeedOptions) (path : string),
    returned (coerceOptions (RT := Reference.runtime) plain_parsed) = Ok options /\
    returned (detectServiceAccount (RT := Reference.runtime) plain None) = Ok path /\
    writes (events (main (RT := Reference.runtime) plain)) = planned_writes plain options.
Proof.
  assert (Hexit : exitCode (main (RT := Reference.runtime) plain) = 0) by evaluate.
  destruct (main_success_complete (RT := Reference.runtime) plain plain_parsed
              eq_refl eq_refl Hexit) as [options [path [H1 [H2 [H3 _]]]]].
  exists options, path. split; [exact H1 |]. split; [exact H2 | exact H3].
Defined.

(** X10 on the run whose teacher write is rejected. *)
Lemma main_writes_after_connection_witness :
  (exists path, In (ReadFile path) unreachable_before) /\
  In AppInitialized unreachable_before.
Proof.
  assert (H : events (main (RT := Reference.runtime) unreachable)
              = (unreachable_before
                   ++ DocSet "teachers" "abc123" (teacher_document (with_session true None))
                   :: failure_lines "14 UNAVAILABLE: No connection established")%list)
    by evaluate.
  exact (main_writes_after_connection (RT := Reference.runtime) unreachable
           unreachable_before _ _ _ _ H).
Defined.

(** X11 on the checkout of the plain run. *)
Lemma detectServiceAccount_scan_first_witness :
  detectServiceAccount (RT := Reference.runtime) plain None
  = (Ok credentials, [Log ("Using service account file: " ++ credentials)]).
Proof.
  apply (detectServiceAccount_scan_first (RT := Reference.runtime) plain None
           ["README.md"] ["frontend"] "demo-firebase-adminsdk-1.json"
           eq_refl eq_refl eq_refl).
  - constructor; [| constructor].
    intros [H _]. apply includes_spec in H. discriminate H.
  - exists "demo-", "-1.json". reflexivity.
  - exists "demo-firebase-adminsdk-1". reflexivity.
Defined.


(** X13 on the plain run. *)
Lemma main_reads_detected_file_witness :
  returned (detectServiceAccount (RT := Reference.runtime) plain
              (get (parsed_serviceAccountPath plain_parsed))) = Ok credentials.
Proof.
  assert (Hin : In (ReadFile credentials) (events (main (RT := Reference.runtime) plain))).
  { assert (H : nth_error (events (main (RT := Reference.runtime) plain)) 1
                = Some (ReadFile credentials)) by evaluate.
    exact (nth_error_In _ _ H). }
  destruct (main_reads_detected_file (RT := Reference.runtime) plain credentials Hin)
    as [parsed [options [Hparsed [_ [_ Hdetect]]]]].
  assert (E : returned (parseArgs (RT := Reference.runtime) (argv plain)) = Ok plain_parsed)
    by evaluate.
  rewrite E in Hparsed. injection Hparsed as <-. exact Hdetect.
Defined.

(** X15 on the plain options without a location. *)
Lemma buildSessionDocuments_default_location_witness :
  exists docs,
    buildSessionDocuments (RT := Reference.runtime) clock nowhere generated_id token
      = (Ok docs, []) /\
    lookup "location" (sessionDoc docs)
      = Some (Data (@JStr Reference.runtime "0.00000, 0.00000")).
Proof.
  destruct (buildSessionDocuments_default_location (RT := Reference.runtime) clock nowhere
              generated_id token eq_refl eq_refl) as [docs [H1 [_ [_ H2]]]].
  exists docs. split; [exact H1 | exact H2].
Defined.

(** The remark on a location without a comma, on [12]. *)
Lemma buildSessionDocuments_single_component_witness :
  exists docs,
    buildSessionDocuments (RT := Reference.runtime) clock (with_location "12")
      generated_id token = (Ok docs, []) /\
    coordinate "latitude" (sessionDoc docs) = Some (@JNum Reference.runtime (Reference.Int 12)) /\
    coordinate "longitude" (sessionDoc docs) = Some (@JNum Reference.runtime (Reference.Int 0)).
Proof.
  exact (buildSessionDocuments_single_component (RT := Reference.runtime) clock
           (with_location "12") generated_id token "12" "12" eq_refl eq_refl eq_refl eq_refl).
Defined.

End MoreRuns.
